(** * parrotbebop: the controller's protocol engine

    A shallow embedding of the ARNetworkAL framing, the per-buffer sequence
    counters, the frame dispatcher, the input router, the PCMD scheduler, the
    discovery handshake and the moveTo waypoint buffer of [main.go] and
    [drone.go], followed by the properties established about them.

    Conventions.  A Go [byte]/[uint8] is a [Z] in [0, 256); a Go [int] is a
    [Z] (64-bit [int], no overflow is reachable on the paths modelled); a
    [[]byte] is a [list Z] whose capacity equals its length, as for the
    buffers the program allocates with [make([]byte, n)] and for slice
    literals; a Go [map[int]uint8] is a [gmap Z Z]; a [float64] is a
    primitive binary64 [float]; a run-time panic is the [Panicked] outcome. *)

From Stdlib Require Import ZArith List Lia PrimFloat DecimalString.
From Stdlib Require Import Floats.SpecFloat Floats.FloatOps Floats.FloatAxioms.
From stdpp Require Import base option list strings gmap.

Local Open Scope Z_scope.

(** ** Go run-time notions *)

Module Go.

(** The result of running a piece of Go code that may panic. *)
Inductive outcome (A : Type) : Type :=
| Returned (a : A)
| Panicked.
Arguments Returned {A} a.
Arguments Panicked {A}.

#[global] Instance outcome_ret : MRet outcome := fun A a => Returned a.

#[global] Instance outcome_bind : MBind outcome := fun A B k m =>
  match m with
  | Returned a => k a
  | Panicked => Panicked
  end.

(** The values of the [error] interface the modelled code produces or
    passes on; [nil] is [None] of [option error]. *)
Inductive error : Type :=
| io_EOF
| net_OpError (code : Z)
| json_SyntaxError (code : Z).

(** Conversion of an [int] to [uint8]: the low eight bits. *)
Definition uint8 (z : Z) : Z := z mod 256.

(** Conversion of an [int] to [int8]: the low eight bits, read as a
    two's complement number. *)
Definition int8 (z : Z) : Z := (z + 128) mod 256 - 128.

(** Conversion of an [int] to [uint32]. *)
Definition uint32 (z : Z) : Z := z mod 2 ^ 32.

(** [s[i]]: panics when [i] is out of range. *)
Definition index (s : list Z) (i : Z) : outcome Z :=
  if decide (0 <= i) then
    match s !! Z.to_nat i with
    | Some b => Returned b
    | None => Panicked
    end
  else Panicked.

(** [s[lo:hi]] on a slice whose capacity is its length: panics unless
    [0 <= lo <= hi <= len(s)]. *)
Definition slice (s : list Z) (lo hi : Z) : outcome (list Z) :=
  if decide (0 <= lo /\ lo <= hi /\ hi <= Z.of_nat (length s)) then
    Returned (take (Z.to_nat (hi - lo)) (drop (Z.to_nat lo) s))
  else Panicked.

(** [binary.Write(&buf, binary.LittleEndian, v)] for a [uint32] and for a
    [uint16]: the bytes of [v], least significant first. *)
Definition putUint32LE (v : Z) : list Z :=
  [v mod 256; (v / 256) mod 256; (v / 65536) mod 256; (v / 16777216) mod 256].

Definition putUint16LE (v : Z) : list Z :=
  [v mod 256; (v / 256) mod 256].

End Go.

(** ** ARNetworkAL framing: [networkUDPPacket.decode] *)

Module networkUDPPacket.
(** [type networkUDPPacket struct { size int; data []byte; framePos int }] *)
Record t : Type := mk { size : Z; data : list Z; framePos : Z }.
End networkUDPPacket.

Module protocolARNetworkAL.
(** [type protocolARNetworkAL struct] *)
Record t : Type := mk {
  dataType : Z;
  targetBufferID : Z;
  sequenceNR : Z;
  size : Z;
  dataARNetwork : list Z
}.
End protocolARNetworkAL.

Module Framing.

(** Modelled from the spec: [ConvLittleEndianSliceToNumeric], which is not
    among the source files, reads the four bytes of the size field as a
    little-endian [uint32] and the two bytes of the command id as a
    little-endian [uint16]. *)
Fixpoint ConvLittleEndianSliceToNumeric (bs : list Z) : Z :=
  match bs with
  | [] => 0
  | b :: rest => b + 256 * ConvLittleEndianSliceToNumeric rest
  end.

Definition headerSize : Z := 7.

(** [func (packet *networkUDPPacket) decode() (protocolARNetworkAL, error)]:
    the frame, the error ([nil] or [io.EOF]) and the packet with its
    cursor as the method leaves it. *)
Definition decode (packet : networkUDPPacket.t)
  : Go.outcome (protocolARNetworkAL.t * option Go.error * networkUDPPacket.t) :=
  let d := networkUDPPacket.data packet in
  let p := networkUDPPacket.framePos packet in
  dt ← Go.index d (p + 0);
  tb ← Go.index d (p + 1);
  sq ← Go.index d (p + 2);
  sz ← Go.slice d (p + 3) (p + 7);
  let size := ConvLittleEndianSliceToNumeric sz in
  payload ← Go.slice d (p + 7) (p + size);
  let frame := protocolARNetworkAL.mk dt tb sq size payload in
  if decide (p + size + headerSize <= networkUDPPacket.size packet) then
    Go.Returned
      (frame, None,
       networkUDPPacket.mk (networkUDPPacket.size packet) d (p + size))
  else
    Go.Returned (frame, Some Go.io_EOF, packet).

(** The size field of the frame at the cursor: the four bytes from
    [framePos+3], read as [decode] reads them. *)
Definition sizeField (packet : networkUDPPacket.t) : Z :=
  ConvLittleEndianSliceToNumeric
    (take 4 (drop (Z.to_nat (networkUDPPacket.framePos packet + 3))
               (networkUDPPacket.data packet))).

(** The datagram as [readNetworkUDPPacketsD2C] hands it over: a fresh
    buffer of 16384 bytes, into which [ReadFrom] has copied the [n] first
    bytes of the datagram, at most 16384 of them, the rest staying zero;
    the cursor is on the first frame. *)
Definition received (bytes : list Z) : networkUDPPacket.t :=
  let read := take (Z.to_nat 16384) bytes in
  networkUDPPacket.mk
    (Z.of_nat (length read))
    (read ++ repeat 0 (Z.to_nat 16384 - length read)%nat)
    0.

(** Two datagrams of eight bytes: a frame whose size field says 3, and a
    frame whose size field says 9. *)
Definition sizeFieldBelowHeader : networkUDPPacket.t :=
  received [2; 0; 123; 3; 0; 0; 0; 170].

Definition sizeFieldBeyondDatagram : networkUDPPacket.t :=
  received [2; 0; 123; 9; 0; 0; 0; 170].

End Framing.

(** ** ARCommands: command descriptors and argument records *)

Module ARCommands.

(** Modelled from the spec: the [Command] struct and its field types are
    declared in a file that is not among the sources; a descriptor is the
    triple project (one byte), class (one byte), command (two bytes). *)
Record Command : Type := mkCommand { Project : Z; Class : Z; Cmd : Z }.

(** [func convertCMDToBytes(c Command) []byte]: every field of the struct
    written in declaration order with [binary.Write], little-endian. *)
Definition convertCMDToBytes (c : Command) : list Z :=
  [Go.uint8 (Project c)] ++ [Go.uint8 (Class c)] ++ Go.putUint16LE (Cmd c mod 65536).

(** The [Encoder] interface: [Encode() []byte]. *)
Class Encoder (A : Type) : Type := Encode : A -> list Z.

(** Modelled from the spec: the descriptor of [PilotingTakeOff] (project 1,
    class 0, command 1) and its argument record, which has no field and
    therefore encodes to no byte; both are declared outside the sources. *)
Definition PilotingTakeOff : Command := mkCommand 1 0 1.

Inductive Ardrone3PilotingTakeOffArguments : Type :=
  mkArdrone3PilotingTakeOffArguments.

#[global] Instance Ardrone3PilotingTakeOffArguments_Encoder
  : Encoder Ardrone3PilotingTakeOffArguments := fun _ => [].

(** Modelled from the spec: the PCMD argument record
    [{flag u8, roll i8, pitch i8, yaw i8, gaz i8, timestampSeq u32}],
    emitted in declaration order, little-endian. *)
Record Ardrone3PilotingPCMDArguments : Type := mkPCMD {
  Flag : Z;
  Roll : Z;
  Pitch : Z;
  Yaw : Z;
  Gaz : Z;
  TimestampAndSeqNum : Z
}.

#[global] Instance Ardrone3PilotingPCMDArguments_Encoder
  : Encoder Ardrone3PilotingPCMDArguments := fun a =>
  [Go.uint8 (Flag a); Go.uint8 (Roll a); Go.uint8 (Pitch a);
   Go.uint8 (Yaw a); Go.uint8 (Gaz a)]
  ++ Go.putUint32LE (Go.uint32 (TimestampAndSeqNum a)).

(** An argument record given by the bytes its [Encode] returns, for the
    records whose declaration is outside the sources. *)
Record encodedArguments : Type := mkEncoded { encodedBytes : list Z }.

#[global] Instance encodedArguments_Encoder : Encoder encodedArguments :=
  encodedBytes.

End ARCommands.

(** ** The packet creator and its sequence counters *)

Module udpPacketCreator.

(** [type udpPacketCreator struct { sequenceNR map[int]uint8 }].  The
    methods have pointer receivers and the map is a reference, so every
    holder of the creator (also of a copy of the struct) works on the one
    map; the model threads that single store. *)
Record t : Type := mk { sequenceNR : gmap Z Z }.

(** [newUdpPacketCreator]: an empty map. *)
Definition newUdpPacketCreator : t := mk ∅.

(** [u.sequenceNR[k]]: the zero value when the key is absent. *)
Definition get (u : t) (k : Z) : Z := default 0 (sequenceNR u !! k).

(** [u.sequenceNR[k]++] on a [uint8] element. *)
Definition incr (u : t) (k : Z) : t :=
  mk (<[k := Go.uint8 (get u k + 1)]> (sequenceNR u)).

(** A [networkUDPPacket{data: d}]: the other fields keep their zero value. *)
Definition packetOf (d : list Z) : networkUDPPacket.t :=
  networkUDPPacket.mk 0 d 0.

(** [func (u *udpPacketCreator) encodePong(data protocolARNetworkAL) networkUDPPacket] *)
Definition encodePong (u : t) (data : protocolARNetworkAL.t)
  : t * networkUDPPacket.t :=
  let u := incr u (protocolARNetworkAL.targetBufferID data) in
  let pdataType := Go.uint8 2 in
  let ptargetBufferID := Go.uint8 (protocolARNetworkAL.targetBufferID data) in
  let psequenceNR := get u ptargetBufferID in
  let psize := [8; 0; 0; 0] in
  let pdata := protocolARNetworkAL.dataARNetwork data in
  let u := incr u ptargetBufferID in
  let d := [pdataType; ptargetBufferID; psequenceNR] in
  let d := d ++ psize in
  let d := d ++ pdata in
  (u, packetOf d).

(** [func (u *udpPacketCreator) encodeAck(targetBufferID int, sequenceNR uint8) networkUDPPacket] *)
Definition encodeAck (u : t) (targetBufferID : Z) (sequenceNR : Z)
  : t * networkUDPPacket.t :=
  let pdataType := Go.uint8 1 in
  let ptargetBufferID := Go.uint8 (targetBufferID + 128) in
  let psequenceNR := sequenceNR in
  let psize := [8; 0; 0; 0] in
  let pdata := Go.uint8 sequenceNR in
  let u := incr u ptargetBufferID in
  let d := [pdataType; ptargetBufferID; psequenceNR] in
  let d := d ++ psize in
  let d := d ++ [pdata] in
  (u, packetOf d).

(** [func (u *udpPacketCreator) encodeCmd(c Command, argument Encoder) networkUDPPacket] *)
Definition encodeCmd {A : Type} `{ARCommands.Encoder A}
  (u : t) (c : ARCommands.Command) (argument : A)
  : t * networkUDPPacket.t :=
  let buffer := 10 in
  let pdataType := Go.uint8 2 in
  let ptargetBufferID := Go.uint8 buffer in
  let u := incr u buffer in
  let psequenceNR := get u buffer in
  let pdata := ARCommands.convertCMDToBytes c in
  let adata := ARCommands.Encode argument in
  let headerSize := 7 in
  let size :=
    Go.uint32 (Go.uint32 (Go.uint32 (Z.of_nat (length pdata))
                          + Go.uint32 (Z.of_nat (length adata)))
               + headerSize) in
  let psize := Go.putUint32LE size in
  let d := [pdataType; ptargetBufferID; psequenceNR] in
  let d := d ++ psize in
  let d := d ++ pdata in
  let d := d ++ adata in
  (u, packetOf d).

(** The sequence-number field of an encoded frame: its third byte. *)
Definition sequenceField (p : networkUDPPacket.t) : Z :=
  nth 2 (networkUDPPacket.data p) 0.

(** The buffer field of an encoded frame: its second byte. *)
Definition bufferField (p : networkUDPPacket.t) : Z :=
  nth 1 (networkUDPPacket.data p) 0.

(** [encodeCmd] called once for every command of a list, in order: the
    creator afterwards and the packets. *)
Fixpoint encodeCmds (u : t)
  (cmds : list (ARCommands.Command * ARCommands.encodedArguments))
  : t * list networkUDPPacket.t :=
  match cmds with
  | [] => (u, [])
  | (c, a) :: rest =>
      let '(u, p) := encodeCmd u c a in
      let '(u, ps) := encodeCmds u rest in
      (u, p :: ps)
  end.

End udpPacketCreator.

(** ** The frame dispatcher: [handleReadPackages] *)

Module Dispatcher.

(** [type protocolARCommands struct { project, class, command, size int }] *)
Record protocolARCommands : Type := mkARCommands {
  project : Z;
  class : Z;
  command : Z;
  size : Z
}.

(** How one turn of the loop over the frames of a packet ends. *)
Inductive control : Type := Continue | Break.

(** How the loop over the frames of one packet ends. *)
Inductive status : Type := Done | Crashed | OutOfFuel.

(** The parts of what a turn or a loop leaves behind. *)
Definition creatorAfter {A : Type}
  (r : udpPacketCreator.t * list networkUDPPacket.t * A) : udpPacketCreator.t :=
  fst (fst r).

Definition sent {A : Type}
  (r : udpPacketCreator.t * list networkUDPPacket.t * A) : list (list Z) :=
  map networkUDPPacket.data (snd (fst r)).

Section WithCommandMap.

(** The decoded argument records and the registry [CommandMap], both
    generated code outside the sources: a descriptor is mapped to the
    [Decode] of its argument record, or is unknown. *)
Variable cmdArgs : Type.
Variable CommandMap : ARCommands.Command -> option (list Z -> Go.outcome cmdArgs).

(** [func (p *protocolARNetworkAL) decode() (cmd protocolARCommands, cmdArgs interface{}, err error)] *)
Definition frameDecode (p : protocolARNetworkAL.t)
  : Go.outcome (protocolARCommands * option cmdArgs * option Go.error) :=
  let d := protocolARNetworkAL.dataARNetwork p in
  pr ← Go.index d 0;
  cl ← Go.index d 1;
  let sz := protocolARNetworkAL.size p - Framing.headerSize in
  cb ← Go.slice d 2 4;
  let tmpCommand := Framing.ConvLittleEndianSliceToNumeric cb in
  let cmd := mkARCommands pr cl tmpCommand sz in
  let c := ARCommands.mkCommand pr cl tmpCommand in
  arguments ← Go.slice d 4 sz;
  match CommandMap c with
  | Some Decode =>
      a ← Decode arguments;
      Go.Returned (cmd, Some a, None)
  | None => Go.Returned (cmd, None, None)
  end.

(** The body of the loop over the frames of a packet, from the frame
    just decoded: the creator afterwards, the packets put on
    [chSendingUDPPacket], in order, and how the turn ends. *)
Definition handleFrame (u : udpPacketCreator.t)
  (frameARNetworkAL : protocolARNetworkAL.t) (lastFrame : bool)
  : udpPacketCreator.t * list networkUDPPacket.t * Go.outcome control :=
  if decide (protocolARNetworkAL.targetBufferID frameARNetworkAL = 0
             \/ protocolARNetworkAL.targetBufferID frameARNetworkAL = 1)
  then
    let '(u, p) := udpPacketCreator.encodePong u frameARNetworkAL in
    (u, [p], Go.Returned (if lastFrame then Break else Continue))
  else
    let '(u, acks) :=
      if decide (protocolARNetworkAL.dataType frameARNetworkAL = 4) then
        let '(u, p) :=
          udpPacketCreator.encodeAck u
            (protocolARNetworkAL.targetBufferID frameARNetworkAL)
            (Go.uint8 (protocolARNetworkAL.sequenceNR frameARNetworkAL)) in
        (u, [p])
      else (u, []) in
    (u, acks,
     r ← frameDecode frameARNetworkAL;
     match r with
     | (_, _, Some _) => Go.Returned Break
     | (_, _, None) => Go.Returned (if lastFrame then Break else Continue)
     end).

(** The loop over the frames of one received packet. *)
Fixpoint handlePacket (fuel : nat) (u : udpPacketCreator.t)
  (udpPacket : networkUDPPacket.t) (lastFrame : bool)
  : udpPacketCreator.t * list networkUDPPacket.t * status :=
  match fuel with
  | O => (u, [], OutOfFuel)
  | S fuel =>
      match Framing.decode udpPacket with
      | Go.Panicked => (u, [], Crashed)
      | Go.Returned (frameARNetworkAL, err, udpPacket) =>
          let lastFrame :=
            match err with
            | Some Go.io_EOF => true
            | _ => lastFrame
            end in
          match handleFrame u frameARNetworkAL lastFrame with
          | (u, out, Go.Panicked) => (u, out, Crashed)
          | (u, out, Go.Returned Break) => (u, out, Done)
          | (u, out, Go.Returned Continue) =>
              let '(u, more, st) := handlePacket fuel u udpPacket lastFrame in
              (u, out ++ more, st)
          end
      end
  end.

End WithCommandMap.

End Dispatcher.

(** ** The input router: [handleInputAction] *)

Module Input.

(** [type inputAction int] and its constants. *)
Inductive inputAction : Type :=
| ActionPcmdFlag
| ActionPcmdRollLeft
| ActionPcmdRollRight
| ActionPcmdPitchForward
| ActionPcmdPitchBackward
| ActionPcmdYawClockwise
| ActionPcmdYawCounterClockwise
| ActionPcmdGazInc
| ActionPcmdGazDec
| ActionTakeoff
| ActionLanding
| ActionEmergency
| ActionNavigateHome
| ActionMoveBy
| ActionUserTakeoff
| ActionMoveTo
| ActionCancelMoveTo
| ActionStartPilotedPOI
| ActionStopPilotedPOI
| ActionCancelMoveBy
| ActionHow
| ActionFlatTrim.

(** [func (d *Drone) CheckLimitPcmdField(number int8) int8] *)
Definition CheckLimitPcmdField (number : Z) : Z :=
  if decide (number > 100) then 100
  else if decide (number < -100) then -100
  else number.

(** Where a packet is handed to. *)
Inductive sendTo : Type :=
| chSendingUDPPacket (p : networkUDPPacket.t)
| chPcmdPacketScheduler (p : networkUDPPacket.t).

(** The piloting state of a new drone: every field zero. *)
Definition pcmdZero : ARCommands.Ardrone3PilotingPCMDArguments :=
  ARCommands.mkPCMD 0 0 0 0 0 0.

Definition withGaz (pcmd : ARCommands.Ardrone3PilotingPCMDArguments) (g : Z)
  : ARCommands.Ardrone3PilotingPCMDArguments :=
  ARCommands.mkPCMD (ARCommands.Flag pcmd) (ARCommands.Roll pcmd)
    (ARCommands.Pitch pcmd) (ARCommands.Yaw pcmd) g
    (ARCommands.TimestampAndSeqNum pcmd).

Section WithCommands.

(** The descriptors and the argument record that the sources use and do
    not declare. *)
Variable PilotingLanding : ARCommands.Command.
Variable PilotingPCMD : ARCommands.Command.
Variable Ardrone3PilotingLandingArguments : ARCommands.encodedArguments.

(** One turn of the loop of [handleInputAction] on a received action:
    the piloting state [d.pcmd], the creator, and the channel sends. *)
Definition handleInputAction
  (pcmd : ARCommands.Ardrone3PilotingPCMDArguments)
  (packetCreator : udpPacketCreator.t) (action : inputAction)
  : ARCommands.Ardrone3PilotingPCMDArguments * udpPacketCreator.t * list sendTo :=
  match action with
  | ActionTakeoff =>
      let '(u, p) :=
        udpPacketCreator.encodeCmd packetCreator ARCommands.PilotingTakeOff
          ARCommands.mkArdrone3PilotingTakeOffArguments in
      (pcmd, u, [chSendingUDPPacket p])
  | ActionLanding =>
      let '(u, p) :=
        udpPacketCreator.encodeCmd packetCreator PilotingLanding
          Ardrone3PilotingLandingArguments in
      (pcmd, u, [chSendingUDPPacket p])
  | ActionPcmdGazInc =>
      let pcmd := withGaz pcmd (Go.int8 (ARCommands.Gaz pcmd + 1)) in
      let pcmd := withGaz pcmd (CheckLimitPcmdField (ARCommands.Gaz pcmd)) in
      let arg := ARCommands.mkPCMD 0 0 0 0 (ARCommands.Gaz pcmd) 0 in
      let '(u, p) := udpPacketCreator.encodeCmd packetCreator PilotingPCMD arg in
      (pcmd, u, [chPcmdPacketScheduler p])
  | ActionPcmdGazDec =>
      let pcmd := withGaz pcmd (Go.int8 (ARCommands.Gaz pcmd - 1)) in
      let pcmd := withGaz pcmd (CheckLimitPcmdField (ARCommands.Gaz pcmd)) in
      let arg := ARCommands.mkPCMD 0 0 0 0 (ARCommands.Gaz pcmd) 0 in
      let '(u, p) := udpPacketCreator.encodeCmd packetCreator PilotingPCMD arg in
      (pcmd, u, [chPcmdPacketScheduler p])
  | _ => (pcmd, packetCreator, [])
  end.

End WithCommands.

End Input.

(** ** The PCMD scheduler: [PcmdPacketScheduler] *)

Module Scheduler.

(** A Go channel of capacity [cap]: the values in its buffer, oldest
    first, and the values of the senders blocked on it, in the order they
    arrived.  A channel made without a size has capacity 0. *)
Record chan (A : Type) : Type := mkChan {
  cap : nat;
  buf : list A;
  sendq : list A
}.
Arguments mkChan {A} cap buf sendq.
Arguments cap {A} c.
Arguments buf {A} c.
Arguments sendq {A} c.

(** [make(chan T, n)] *)
Definition make {A : Type} (n : nat) : chan A := mkChan n [] [].

(** [ch <- v] with no receiver waiting: the value enters the buffer when
    there is room, and otherwise the sender blocks with it. *)
Definition send {A : Type} (ch : chan A) (v : A) : chan A :=
  if decide (length (buf ch) < cap ch)%nat
  then mkChan (cap ch) (buf ch ++ [v]) (sendq ch)
  else mkChan (cap ch) (buf ch) (sendq ch ++ [v]).

(** [case v := <-ch:] of a [select] with a [default]: the oldest buffered
    value, the first blocked sender then moving its value into the buffer;
    on an empty buffer the value of the first blocked sender; [None] when
    the [default] branch is taken. *)
Definition tryRecv {A : Type} (ch : chan A) : option (A * chan A) :=
  match buf ch with
  | v :: rest =>
      Some (v, mkChan (cap ch) (rest ++ take 1 (sendq ch)) (drop 1 (sendq ch)))
  | [] =>
      match sendq ch with
      | v :: waiting => Some (v, mkChan (cap ch) [] waiting)
      | [] => None
      end
  end.

(** The values a channel holds, oldest first. *)
Definition pending {A : Type} (ch : chan A) : list A := buf ch ++ sendq ch.

(** [pending] is in the order of the sends as long as senders block only
    on a full buffer, which [make] establishes and [send] and [tryRecv]
    keep. *)
Definition ordered {A : Type} (ch : chan A) : Prop :=
  sendq ch = [] \/ (cap ch <= length (buf ch))%nat.

(** The scheduler and its surroundings: the channel the input router
    writes PCMD packets to and the packets forwarded so far to
    [chSendingUDPPacket], oldest first. *)
Record state : Type := mkState {
  chPcmdPacketScheduler : chan networkUDPPacket.t;
  forwarded : list networkUDPPacket.t
}.

(** [NewDrone] in [main.go]: [make(chan networkUDPPacket, 100)]. *)
Definition NewDrone : state := mkState (make 100) [].

(** What happens around the scheduler: the input router sends a PCMD
    packet, or the 50 ms timer of the scheduler's loop fires. *)
Inductive event : Type :=
| Produce (p : networkUDPPacket.t)
| Tick.

(** One firing of [time.After(duration1)]: the inner [select]. *)
Definition tick (s : state) : state :=
  match tryRecv (chPcmdPacketScheduler s) with
  | Some (p, ch) => mkState ch (forwarded s ++ [p])
  | None => s
  end.

Definition step (s : state) (e : event) : state :=
  match e with
  | Produce p => mkState (send (chPcmdPacketScheduler s) p) (forwarded s)
  | Tick => tick s
  end.

Definition run (s : state) (es : list event) : state := fold_left step es s.

(** The packets the input router produced during a run, in order. *)
Fixpoint produced (es : list event) : list networkUDPPacket.t :=
  match es with
  | [] => []
  | Produce p :: es => p :: produced es
  | Tick :: es => produced es
  end.

(** The number of timer firings of a run. *)
Fixpoint ticks (es : list event) : nat :=
  match es with
  | [] => O
  | Produce _ :: es => ticks es
  | Tick :: es => S (ticks es)
  end.

(** The buffer of a channel never holds more than its capacity. *)
Definition bounded {A : Type} (ch : chan A) : Prop :=
  (length (buf ch) <= cap ch)%nat.

(** Two PCMD frames, the second produced after the first. *)
Definition olderPcmd : networkUDPPacket.t :=
  udpPacketCreator.packetOf
    [2; 10; 1; 20; 0; 0; 0; 1; 0; 2; 0; 0; 0; 0; 0; 1; 0; 0; 0; 0].

Definition latestPcmd : networkUDPPacket.t :=
  udpPacketCreator.packetOf
    [2; 10; 2; 20; 0; 0; 0; 1; 0; 2; 0; 0; 0; 0; 0; 2; 0; 0; 0; 0].

End Scheduler.

(** ** The discovery handshake: [Discover] *)

Module Discovery.

(** The anonymous struct the response is unmarshalled into. *)
Record discoverData : Type := mkDiscoverData {
  Status : Z;
  C2dPort : Z;
  C2dUpdate : Z;
  C2dUserPort : Z;
  QosMode : Z;
  Arstream2ServerStreamPort : Z;
  Arstream2ServerControlPort : Z
}.

(** The fields of [Drone] the handshake reads and writes. *)
Record Drone : Type := mkDrone {
  addressDrone : string;
  portDiscover : string;
  portC2D : string;
  portD2C : string;
  portRTPStream : string;
  portRTPControl : string
}.

(** [NewDrone]: [portC2D] is left to the discovery. *)
Definition NewDrone : Drone :=
  mkDrone "192.168.42.1"%string "44444"%string EmptyString
    "43210"%string "55004"%string "55005"%string.

(** What the network and the JSON library answer during one call:
    the error of [nd.Dial], of [discoverConn.Write] and of
    [discoverConn.Read] ([None] is [nil]), the content of [discoverData]
    after [json.Unmarshal] and the error [json.Unmarshal] returned. *)
Record answers : Type := mkAnswers {
  dialErr : option Go.error;
  writeErr : option Go.error;
  readErr : option Go.error;
  unmarshalled : discoverData;
  unmarshalErr : option Go.error
}.

(** How a call ends: it returns to its caller, or the process exits
    ([log.Fatal] logs and calls [os.Exit(1)]). *)
Inductive ending (A : Type) : Type :=
| Returns (a : A)
| ProcessExits (code : Z).
Arguments Returns {A} a.
Arguments ProcessExits {A} code.

(** [strconv.Itoa] *)
Definition Itoa (n : Z) : string :=
  DecimalString.NilZero.string_of_int (Z.to_int n).

Definition withPortC2D (d : Drone) (port : string) : Drone :=
  mkDrone (addressDrone d) (portDiscover d) port (portD2C d)
    (portRTPStream d) (portRTPControl d).

(** [func (d *Drone) Discover() error]: the drone afterwards and the
    error returned. *)
Definition Discover (d : Drone) (net : answers) : ending (Drone * option Go.error) :=
  match dialErr net with
  | Some err => Returns (d, Some err)
  | None =>
      (* a failed Write is logged *)
      match readErr net with
      | Some err => Returns (d, Some err)
      | None =>
          (* a failed Unmarshal is logged *)
          let discoverData := unmarshalled net in
          if decide (Status discoverData <> 0) then ProcessExits 1
          else Returns (withPortC2D d (Itoa (C2dPort discoverData)), None)
      end
  end.

(** The answers of a drone whose response parses, for a given status and
    port: no error anywhere. *)
Definition parsedResponse (status port : Z) : answers :=
  mkAnswers None None None (mkDiscoverData status port 51 21 0 5004 5005) None.

End Discovery.

(** ** The moveTo waypoint buffer: [moveToBuffer] *)

Module MoveTo.

(** [type gpsLatLonAlt struct { latitude, longitude, altitude float64 }] *)
Record gpsLatLonAlt : Type := mkGps {
  latitude : float;
  longitude : float;
  altitude : float
}.

(** [gpsLatLonAlt{}] *)
Definition gpsZero : gpsLatLonAlt := mkGps 0%float 0%float 0%float.

(** A [[]gpsLatLonAlt]: the backing array from the start of the slice to
    its capacity, and the length of the slice. *)
Record waypointSlice : Type := mkSlice {
  arr : list gpsLatLonAlt;
  len : nat
}.

(** The elements of a slice, first to last. *)
Definition elems (s : waypointSlice) : list gpsLatLonAlt :=
  take (len s) (arr s).

(** [len(s) <= cap(s)], which every Go slice satisfies. *)
Definition wellFormed (s : waypointSlice) : Prop :=
  (len s <= length (arr s))%nat.

(** The nil slice. *)
Definition nilSlice : waypointSlice := mkSlice [] 0.

(** [type moveToBuffer struct]: the waypoints; its channels carry the
    waypoints in and out and hold none. *)
Record moveToBuffer : Type := mkBuffer { waypoints : waypointSlice }.

(** [newMoveToHandler]: no waypoint. *)
Definition newMoveToHandler : moveToBuffer := mkBuffer nilSlice.

Section WithGrowth.

(** The spare capacity the run time adds when [append] has to move a
    slice of the given length to a larger array. *)
Variable spare : nat -> nat.

(** [append(s, d)]: in place when the capacity allows, into a new array
    otherwise. *)
Definition append1 (s : waypointSlice) (d : gpsLatLonAlt) : waypointSlice :=
  if decide (len s < length (arr s))%nat then
    mkSlice (<[len s := d]> (arr s)) (S (len s))
  else
    mkSlice (elems s ++ [d] ++ replicate (spare (len s)) gpsZero) (S (len s)).

(** [append(s[0:0], s[1:]...)] for a slice that is not empty: the
    elements after the first are moved to the front of the same array,
    whose later cells keep what they held. *)
Definition dropFirst (s : waypointSlice) : waypointSlice :=
  let src := take (len s - 1) (drop 1 (arr s)) in
  mkSlice (src ++ drop (length src) (arr s)) (length src).

(** [func (s *moveToBuffer) pushWayPointNew(d gpsLatLonAlt)] *)
Definition pushWayPointNew (s : moveToBuffer) (d : gpsLatLonAlt) : moveToBuffer :=
  mkBuffer (append1 (waypoints s) d).

(** [func (s *moveToBuffer) pullWayPointNext() (gpsLatLonAlt, error)]:
    the waypoint, the error and the buffer afterwards. *)
Definition pullWayPointNext (s : moveToBuffer)
  : gpsLatLonAlt * option Go.error * moveToBuffer :=
  if decide (len (waypoints s) = 0%nat) then (gpsZero, Some Go.io_EOF, s)
  else
    let v := default gpsZero (arr (waypoints s) !! 0%nat) in
    (v, None, mkBuffer (dropFirst (waypoints s))).

(** One turn of the loop of [startWayPointReceiver] on the waypoint [wp]
    received from [chNewWayPointIn]. *)
Definition startWayPointReceiver (s : moveToBuffer) (wp : gpsLatLonAlt)
  : moveToBuffer :=
  if PrimFloat.ltb 91 (latitude wp) || PrimFloat.ltb (latitude wp) (-91) then s
  else if PrimFloat.ltb 181 (longitude wp) || PrimFloat.ltb (longitude wp) (-181)
  then s
  else pushWayPointNew s wp.

End WithGrowth.

(** The spare capacity left by a run time that doubles the capacity of a
    full slice: 0 to 1, 1 to 2, 2 to 4. *)
Definition doubling (n : nat) : nat := (n - 1)%nat.

(** A buffer that was given two waypoints. *)
Definition twoWaypoints : moveToBuffer :=
  pushWayPointNew doubling
    (pushWayPointNew doubling newMoveToHandler (mkGps 59 10 30))
    (mkGps 60 11 40).

End MoveTo.

(** ** Runs of the packet creator *)

Module Calls.

(** One call of a method of the packet creator. *)
Inductive call : Type :=
| callCmd (c : ARCommands.Command) (argument : ARCommands.encodedArguments)
| callAck (targetBufferID sequenceNR : Z)
| callPong (data : protocolARNetworkAL.t).

Definition perform (u : udpPacketCreator.t) (k : call)
  : udpPacketCreator.t * networkUDPPacket.t :=
  match k with
  | callCmd c argument => udpPacketCreator.encodeCmd u c argument
  | callAck targetBufferID sequenceNR =>
      udpPacketCreator.encodeAck u targetBufferID sequenceNR
  | callPong data => udpPacketCreator.encodePong u data
  end.

(** The calls made on one creator, in the order they are made: the creator
    afterwards and the packet of every call. *)
Fixpoint performAll (u : udpPacketCreator.t) (calls : list call)
  : udpPacketCreator.t * list networkUDPPacket.t :=
  match calls with
  | [] => (u, [])
  | k :: rest =>
      let '(u, p) := perform u k in
      let '(u, ps) := performAll u rest in
      (u, p :: ps)
  end.

Definition isCmd (k : call) : bool :=
  match k with
  | callCmd _ _ => true
  | _ => false
  end.

(** The sequence numbers of the command frames among the packets of a run,
    in order. *)
Definition commandNumbers (calls : list call) (packets : list networkUDPPacket.t)
  : list Z :=
  map (fun kp => udpPacketCreator.sequenceField (snd kp))
    (filter (fun kp => isCmd (fst kp) = true) (zip calls packets)).

(** The calls [handleReadPackages] makes for a frame [decode] returned: a
    pong for the buffers 0 and 1, an ack for another buffer, which is a
    byte.  The ack for buffer 138 is excluded: it is written to buffer
    138 + 128 - 256 = 10, the buffer of the commands. *)
Definition reply (k : call) : Prop :=
  match k with
  | callCmd _ _ => True
  | callAck targetBufferID _ =>
      0 <= targetBufferID < 256 /\ targetBufferID <> 138
  | callPong data =>
      protocolARNetworkAL.targetBufferID data = 0
      \/ protocolARNetworkAL.targetBufferID data = 1
  end.

End Calls.

(** ** Frames on the wire *)

Module Wire.

(** The bytes of a frame in a datagram, in the layout [decode] reads and
    [encodeCmd] writes: type, buffer, sequence number, the size as a
    little-endian [uint32], the payload. *)
Definition bytesOf (f : protocolARNetworkAL.t) : list Z :=
  [protocolARNetworkAL.dataType f; protocolARNetworkAL.targetBufferID f;
   protocolARNetworkAL.sequenceNR f]
  ++ Go.putUint32LE (protocolARNetworkAL.size f)
  ++ protocolARNetworkAL.dataARNetwork f.

(** The size field of a frame counts its header and its payload. *)
Definition sized (f : protocolARNetworkAL.t) : Prop :=
  protocolARNetworkAL.size f
  = 7 + Z.of_nat (length (protocolARNetworkAL.dataARNetwork f))
  /\ protocolARNetworkAL.size f < 2 ^ 32.

(** The pongs for a list of frames, answered in order. *)
Fixpoint pongs (u : udpPacketCreator.t) (frames : list protocolARNetworkAL.t)
  : udpPacketCreator.t * list networkUDPPacket.t :=
  match frames with
  | [] => (u, [])
  | f :: rest =>
      let '(u, p) := udpPacketCreator.encodePong u f in
      let '(u, ps) := pongs u rest in
      (u, p :: ps)
  end.

End Wire.

(** ** Runs of the input router *)

Module InputRuns.

Section WithCommands.

Variable PilotingLanding : ARCommands.Command.
Variable PilotingPCMD : ARCommands.Command.
Variable Ardrone3PilotingLandingArguments : ARCommands.encodedArguments.

(** The loop of [handleInputAction] over the actions received, in order:
    the piloting state and the creator afterwards, and the channel sends. *)
Fixpoint handleInputActions
  (pcmd : ARCommands.Ardrone3PilotingPCMDArguments)
  (packetCreator : udpPacketCreator.t) (actions : list Input.inputAction)
  : ARCommands.Ardrone3PilotingPCMDArguments * udpPacketCreator.t
    * list Input.sendTo :=
  match actions with
  | [] => (pcmd, packetCreator, [])
  | action :: rest =>
      let '(pcmd, u, out) :=
        Input.handleInputAction PilotingLanding PilotingPCMD
          Ardrone3PilotingLandingArguments pcmd packetCreator action in
      let '(pcmd, u, more) := handleInputActions pcmd u rest in
      (pcmd, u, out ++ more)
  end.

End WithCommands.

(** The actions [handleInputAction] has a case for. *)
Definition handled (action : Input.inputAction) : bool :=
  match action with
  | Input.ActionTakeoff | Input.ActionLanding
  | Input.ActionPcmdGazInc | Input.ActionPcmdGazDec => true
  | _ => false
  end.

End InputRuns.

(** ** The session: discovery with retries *)

Module Session.

(** The loop of [start] around [Discover]: [turns] turns are left, [i]
    calls were made, and the [i]-th call gets the answers [net i].  A call
    that returns an error is followed by the next turn, a call that returns
    [nil] ends the loop; [start] goes on after the loop either way.  The
    result is the drone and the number of calls made. *)
Fixpoint discoverLoop (net : nat -> Discovery.answers) (turns i : nat)
  (d : Discovery.Drone) : Discovery.ending (Discovery.Drone * nat) :=
  match turns with
  | O => Discovery.Returns (d, i)
  | S turns =>
      match Discovery.Discover d (net i) with
      | Discovery.ProcessExits code => Discovery.ProcessExits code
      | Discovery.Returns (d, Some _) => discoverLoop net turns (S i) d
      | Discovery.Returns (d, None) => Discovery.Returns (d, S i)
      end
  end.

(** [for i := 0; i < 20; i++] *)
Definition discover (net : nat -> Discovery.answers) (d : Discovery.Drone)
  : Discovery.ending (Discovery.Drone * nat) :=
  discoverLoop net 20 0 d.

(** A call that [Discover] answers with an error. *)
Definition fails (a : Discovery.answers) : Prop :=
  is_Some (Discovery.dialErr a)
  \/ (Discovery.dialErr a = None /\ is_Some (Discovery.readErr a)).

(** A call that [Discover] answers with [nil]. *)
Definition succeeds (a : Discovery.answers) : Prop :=
  Discovery.dialErr a = None /\ Discovery.readErr a = None
  /\ Discovery.Status (Discovery.unmarshalled a) = 0.

End Session.

(** ** The GPS registers: [StartReadingPosition] *)

Module GPS.

(** [type GPS struct], without its channels. *)
Record t : Type := mk {
  connected : bool;
  latitude : float;
  longitude : float;
  altitude : float;
  latitudeMoveTo : float;
  longitudeMoveTo : float;
  altitudeMoveto : float;
  doingMoveTo : bool
}.

(** The registers of a new drone: not connected, 500 everywhere. *)
Definition NewDrone : t := mk false 500 500 500 500 500 500 false.

(** One turn of the loop of [StartReadingPosition] on the position [v]
    received from [chCurrentLocation]. *)
Definition readPosition (g : t) (v : MoveTo.gpsLatLonAlt) : t :=
  let connected :=
    if PrimFloat.eqb (MoveTo.latitude v) 500
       || PrimFloat.eqb (MoveTo.longitude v) 500
       || PrimFloat.eqb (MoveTo.altitude v) 500
    then false else connected g in
  mk connected (MoveTo.latitude v) (MoveTo.longitude v) (MoveTo.altitude v)
    (latitudeMoveTo g) (longitudeMoveTo g) (altitudeMoveto g) (doingMoveTo g).

(** [func (g *GPS) StartReadingPosition()] over the positions received, in
    order. *)
Definition StartReadingPosition (g : t) (vs : list MoveTo.gpsLatLonAlt) : t :=
  fold_left readPosition vs g.

End GPS.

(** ** Runs of the waypoint buffer *)

Module MoveToRuns.

(** A waypoint none of the four comparisons of [startWayPointReceiver]
    holds for. *)
Definition inRange (wp : MoveTo.gpsLatLonAlt) : bool :=
  negb (PrimFloat.ltb 91 (MoveTo.latitude wp)
        || PrimFloat.ltb (MoveTo.latitude wp) (-91))
  && negb (PrimFloat.ltb 181 (MoveTo.longitude wp)
           || PrimFloat.ltb (MoveTo.longitude wp) (-181)).

(** The loop of [startWayPointReceiver] over the waypoints received, in
    order. *)
Definition receiveAll (spare : nat -> nat) (s : MoveTo.moveToBuffer)
  (wps : list MoveTo.gpsLatLonAlt) : MoveTo.moveToBuffer :=
  fold_left (MoveTo.startWayPointReceiver spare) wps s.

(** [n] calls of [pullWayPointNext] in a row, on one buffer: the waypoints
    of the calls that returned no error, in order, and the buffer
    afterwards. *)
Fixpoint pullWayPoints (n : nat) (s : MoveTo.moveToBuffer)
  : list MoveTo.gpsLatLonAlt * MoveTo.moveToBuffer :=
  match n with
  | O => ([], s)
  | S n =>
      match MoveTo.pullWayPointNext s with
      | (wp, None, s) =>
          let '(wps, s) := pullWayPoints n s in
          (wp :: wps, s)
      | (_, Some _, s) => pullWayPoints n s
      end
  end.

End MoveToRuns.

(** * Properties *)

(** ** Indexing and slicing *)

Module GoFacts.

Lemma index_in_range (s : list Z) (i : Z) :
  0 <= i < Z.of_nat (length s) ->
  Go.index s i = Go.Returned (nth (Z.to_nat i) s 0).
Proof.
  intros Hi. unfold Go.index.
  destruct (decide (0 <= i)) as [_|Hneg]; [|lia].
  destruct (s !! Z.to_nat i) as [b|] eqn:Hb.
  - f_equal. symmetry. apply nth_lookup_Some with (d := 0) in Hb. exact Hb.
  - apply lookup_ge_None in Hb. lia.
Qed.

Lemma index_out_of_range (s : list Z) (i : Z) :
  ~ (0 <= i < Z.of_nat (length s)) -> Go.index s i = Go.Panicked.
Proof.
  intros Hi. unfold Go.index.
  destruct (decide (0 <= i)) as [Hpos|]; [|reflexivity].
  destruct (s !! Z.to_nat i) as [b|] eqn:Hb; [|reflexivity].
  apply lookup_lt_Some in Hb. lia.
Qed.

Lemma slice_in_range (s : list Z) (lo hi : Z) :
  0 <= lo -> lo <= hi -> hi <= Z.of_nat (length s) ->
  Go.slice s lo hi
  = Go.Returned (take (Z.to_nat (hi - lo)) (drop (Z.to_nat lo) s)).
Proof.
  intros H1 H2 H3. unfold Go.slice.
  destruct (decide _) as [_|Hn]; [reflexivity|]. exfalso. apply Hn. auto.
Qed.

Lemma slice_out_of_range (s : list Z) (lo hi : Z) :
  ~ (0 <= lo /\ lo <= hi /\ hi <= Z.of_nat (length s)) ->
  Go.slice s lo hi = Go.Panicked.
Proof.
  intros Hn. unfold Go.slice.
  destruct (decide _) as [H|_]; [contradiction|reflexivity].
Qed.

Lemma slice_returned (s l : list Z) (lo hi : Z) :
  Go.slice s lo hi = Go.Returned l ->
  0 <= lo /\ lo <= hi /\ hi <= Z.of_nat (length s).
Proof.
  unfold Go.slice. destruct (decide _) as [H|_]; [intros _; exact H|discriminate].
Qed.

Lemma uint8_range (z : Z) : 0 <= Go.uint8 z < 256.
Proof. unfold Go.uint8. apply Z.mod_pos_bound. lia. Qed.

Lemma uint8_small (z : Z) : 0 <= z < 256 -> Go.uint8 z = z.
Proof. intros Hz. unfold Go.uint8. apply Z.mod_small. exact Hz. Qed.

End GoFacts.

(** ** Frame decoding *)

Module FramingFacts.

Ltac step_bind := cbn [mbind Go.outcome_bind].

(** C4, the claim as stated fails.  A datagram of eight bytes whose size
    field is 3 holds a whole header and a size below 7: no error comes
    back, [decode] panics on the slice [data[7:3]].  A datagram of eight
    bytes whose size field is 9 is not refused either: the frame comes
    back with a payload of two bytes, the second one read from the
    receive buffer behind the datagram. *)
Lemma decode_does_not_report_truncation :
  (7 <= networkUDPPacket.size Framing.sizeFieldBelowHeader
        - networkUDPPacket.framePos Framing.sizeFieldBelowHeader
   /\ Framing.sizeField Framing.sizeFieldBelowHeader = 3
   /\ Framing.decode Framing.sizeFieldBelowHeader = Go.Panicked)
  /\ (networkUDPPacket.size Framing.sizeFieldBeyondDatagram
      - networkUDPPacket.framePos Framing.sizeFieldBeyondDatagram = 8
      /\ Framing.sizeField Framing.sizeFieldBeyondDatagram = 9
      /\ exists frame err packet,
           Framing.decode Framing.sizeFieldBeyondDatagram
           = Go.Returned (frame, err, packet)
           /\ protocolARNetworkAL.dataARNetwork frame = [170; 0]).
Proof.
  split.
  - repeat split; vm_compute; congruence.
  - split; [reflexivity|]. split; [reflexivity|].
    destruct (Framing.decode Framing.sizeFieldBeyondDatagram)
      as [[[frame err] packet]|] eqn:Hd.
    + exists frame, err, packet. split; [reflexivity|].
      vm_compute in Hd. injection Hd as Hf _ _. rewrite <- Hf. reflexivity.
    + vm_compute in Hd. discriminate Hd.
Qed.

(** C4, as amended.  [decode] validates nothing and knows no truncation
    error.  At a cursor [p >= 0] in a packet whose buffer [data] holds [L]
    bytes and whose size field at the cursor reads [s]: when
    [p + 7 <= L], [7 <= s] and [p + s <= L] it returns the frame made of
    the three header bytes, [s] and the [s - 7] bytes from [p + 7], with
    a [nil] error and the cursor moved to [p + s] when
    [p + s + 7 <= size], and with [io.EOF] and the cursor unmoved
    otherwise; in every other case it panics.  The length [size] of the
    datagram takes part in the choice between [nil] and [io.EOF] only. *)
Theorem decode_performs_no_validation (packet : networkUDPPacket.t) :
  let d := networkUDPPacket.data packet in
  let p := networkUDPPacket.framePos packet in
  let n := networkUDPPacket.size packet in
  let L := Z.of_nat (length d) in
  let s := Framing.sizeField packet in
  0 <= p ->
  (p + 7 <= L /\ 7 <= s /\ p + s <= L ->
   Framing.decode packet =
   Go.Returned
     (protocolARNetworkAL.mk
        (nth (Z.to_nat p) d 0) (nth (Z.to_nat (p + 1)) d 0)
        (nth (Z.to_nat (p + 2)) d 0) s
        (take (Z.to_nat (s - 7)) (drop (Z.to_nat (p + 7)) d)),
      (if decide (p + s + 7 <= n) then None else Some Go.io_EOF),
      (if decide (p + s + 7 <= n)
       then networkUDPPacket.mk n d (p + s) else packet)))
  /\ (~ (p + 7 <= L /\ 7 <= s /\ p + s <= L) ->
      Framing.decode packet = Go.Panicked).
Proof.
  intros d p n L s Hp. split.
  - intros (HL & Hs & HsL). unfold Framing.decode. fold d p n.
    rewrite !GoFacts.index_in_range by (fold L; lia).
    rewrite (GoFacts.slice_in_range d (p + 3) (p + 7)) by (fold L; lia).
    step_bind.
    replace (Z.to_nat (p + 7 - (p + 3))) with 4%nat by lia.
    change (Framing.ConvLittleEndianSliceToNumeric
              (take 4 (drop (Z.to_nat (p + 3)) d))) with s.
    rewrite (GoFacts.slice_in_range d (p + 7) (p + s)) by (fold L; lia).
    step_bind.
    replace (p + s - (p + 7)) with (s - 7) by lia.
    replace (p + 0) with p by lia.
    unfold Framing.headerSize.
    destruct (decide (p + s + 7 <= n)); reflexivity.
  - intros Hbad. unfold Framing.decode. fold d p n.
    destruct (Go.index d (p + 0)) as [dt|]; [|reflexivity].
    destruct (Go.index d (p + 1)) as [tb|]; [|reflexivity].
    destruct (Go.index d (p + 2)) as [sq|]; [|reflexivity].
    step_bind.
    destruct (decide (p + 7 <= L)) as [HL|HL].
    + rewrite (GoFacts.slice_in_range d (p + 3) (p + 7)) by (fold L; lia).
      step_bind.
      replace (Z.to_nat (p + 7 - (p + 3))) with 4%nat by lia.
      change (Framing.ConvLittleEndianSliceToNumeric
                (take 4 (drop (Z.to_nat (p + 3)) d))) with s.
      rewrite (GoFacts.slice_out_of_range d (p + 7) (p + s)); [reflexivity|].
      fold L. intros (H1 & H2 & H3). apply Hbad. repeat split; lia.
    + rewrite (GoFacts.slice_out_of_range d (p + 3) (p + 7)); [reflexivity|].
      fold L. lia.
Qed.


(** The theorem at the frame [04 0b 42 0b000000 12345678], alone in its
    buffer. *)
Lemma decode_performs_no_validation_witness :
  0 <= 0
  /\ Framing.decode (networkUDPPacket.mk 11 [4; 11; 66; 11; 0; 0; 0; 18; 52; 86; 120] 0)
     = Go.Returned
         (protocolARNetworkAL.mk 4 11 66 11 [18; 52; 86; 120],
          Some Go.io_EOF,
          networkUDPPacket.mk 11 [4; 11; 66; 11; 0; 0; 0; 18; 52; 86; 120] 0).
Proof.
  split; [lia|].
  pose proof (decode_performs_no_validation
                (networkUDPPacket.mk 11 [4; 11; 66; 11; 0; 0; 0; 18; 52; 86; 120] 0))
    as H.
  cbv zeta in H. destruct (H ltac:(simpl; lia)) as [Hok _].
  rewrite Hok; [reflexivity|].
  vm_compute. repeat split; congruence.
Defined.

End FramingFacts.

(** ** The sequence counters *)

Module CreatorFacts.

Import udpPacketCreator.

Lemma get_incr_same (u : t) (k : Z) :
  get (incr u k) k = Go.uint8 (get u k + 1).
Proof. unfold get, incr. simpl. rewrite lookup_insert_eq. reflexivity. Qed.

Lemma lookup_incr_other (u : t) (k k' : Z) :
  k' <> k -> sequenceNR (incr u k) !! k' = sequenceNR u !! k'.
Proof. intros Hne. unfold incr. simpl. apply lookup_insert_ne. congruence. Qed.

Lemma get_incr_other (u : t) (k k' : Z) :
  k' <> k -> get (incr u k) k' = get u k'.
Proof. intros Hne. unfold get. rewrite lookup_incr_other by exact Hne. reflexivity. Qed.

Lemma get_new (k : Z) : get newUdpPacketCreator k = 0.
Proof. unfold get, newUdpPacketCreator. simpl. rewrite lookup_empty. reflexivity. Qed.

(** What one [encodeCmd] does to the creator and puts in the frame. *)
Lemma encodeCmd_creator {A : Type} `{ARCommands.Encoder A}
  (u : t) (c : ARCommands.Command) (a : A) :
  fst (encodeCmd u c a) = incr u 10.
Proof. reflexivity. Qed.

Lemma encodeCmd_data {A : Type} `{ARCommands.Encoder A}
  (u : t) (c : ARCommands.Command) (a : A) :
  exists rest,
    networkUDPPacket.data (snd (encodeCmd u c a))
    = 2 :: 10 :: Go.uint8 (get u 10 + 1) :: rest.
Proof.
  unfold encodeCmd. cbn [snd packetOf networkUDPPacket.data].
  rewrite get_incr_same. eexists. reflexivity.
Qed.

Lemma encodeCmd_sequenceField {A : Type} `{ARCommands.Encoder A}
  (u : t) (c : ARCommands.Command) (a : A) :
  sequenceField (snd (encodeCmd u c a)) = (get u 10 + 1) mod 256.
Proof.
  destruct (encodeCmd_data u c a) as [rest Hd].
  unfold sequenceField. rewrite Hd. reflexivity.
Qed.

Lemma encodeCmd_get {A : Type} `{ARCommands.Encoder A}
  (u : t) (c : ARCommands.Command) (a : A) :
  get (fst (encodeCmd u c a)) 10 = (get u 10 + 1) mod 256.
Proof. rewrite encodeCmd_creator. apply get_incr_same. Qed.

(** The sequence numbers of a run of [encodeCmd] from any creator: the
    successors of the counter of buffer 10, modulo 256. *)
Lemma encodeCmds_sequence
  (cmds : list (ARCommands.Command * ARCommands.encodedArguments)) :
  forall u : t,
    map sequenceField (snd (encodeCmds u cmds))
    = map (fun i => (get u 10 + 1 + Z.of_nat i) mod 256) (seq 0 (length cmds)).
Proof.
  induction cmds as [|[c a] rest IH]; intros u; [reflexivity|].
  cbn [encodeCmds].
  pose proof (encodeCmd_sequenceField u c a) as Hs.
  pose proof (encodeCmd_get u c a) as Hg.
  destruct (encodeCmd u c a) as [u1 p] eqn:He. cbn [fst snd] in Hs, Hg.
  specialize (IH u1).
  destruct (encodeCmds u1 rest) as [u2 ps]. cbn [snd] in IH |- *.
  cbn [map length seq]. f_equal.
  - rewrite Hs. f_equal. lia.
  - rewrite IH, <- seq_shift, map_map. apply map_ext. intros i.
    rewrite Hg, Nat2Z.inj_succ.
    rewrite <- Z.add_assoc, Zplus_mod_idemp_l. f_equal. lia.
Qed.

(** C3, the claim as stated fails.  The first command encoded by a fresh
    creator carries the sequence number 1, where the claim has 0, the value
    of the counter before the operation. *)
Lemma first_command_is_numbered_one :
  get newUdpPacketCreator 10 = 0
  /\ map sequenceField
       (snd (encodeCmds newUdpPacketCreator
               [(ARCommands.PilotingTakeOff, ARCommands.mkEncoded [])]))
     = [1]
  /\ map sequenceField
       (snd (encodeCmds newUdpPacketCreator
               [(ARCommands.PilotingTakeOff, ARCommands.mkEncoded [])]))
     <> map (fun i => Z.of_nat i mod 256) (seq 0 1).
Proof.
  split; [apply get_new|]. split; [reflexivity|].
  vm_compute. discriminate.
Qed.

(** C3, as amended.  From a fresh creator, [N] operations of [encodeCmd],
    which all emit on buffer 10, carry the sequence numbers
    1, 2, ..., N modulo 256: every operation first adds exactly one
    (wrapping at 256) to the counter of buffer 10 and then puts the new
    value of the counter into the frame. *)
Theorem encodeCmd_numbers_from_one :
  (forall cmds : list (ARCommands.Command * ARCommands.encodedArguments),
     map sequenceField (snd (encodeCmds newUdpPacketCreator cmds))
     = map (fun i => (Z.of_nat i + 1) mod 256) (seq 0 (length cmds)))
  /\ (forall (u : t) (c : ARCommands.Command) (a : ARCommands.encodedArguments),
        get (fst (encodeCmd u c a)) 10 = (get u 10 + 1) mod 256
        /\ sequenceField (snd (encodeCmd u c a)) = get (fst (encodeCmd u c a)) 10).
Proof.
  split.
  - intros cmds. rewrite encodeCmds_sequence. apply map_ext. intros i.
    rewrite get_new. f_equal. lia.
  - intros u c a. split; [apply encodeCmd_get|].
    rewrite encodeCmd_sequenceField, encodeCmd_get. reflexivity.
Qed.

(** C10, the claim as stated fails.  The ack for the buffer 138 is not
    written to a buffer 128 + 138: its buffer byte is 10, and the counter
    it advances is the one of buffer 10, the buffer of the commands. *)
Lemma ack_for_buffer_138_counts_on_buffer_10 :
  sequenceNR newUdpPacketCreator !! 10 = None
  /\ sequenceNR (fst (encodeAck newUdpPacketCreator 138 66)) !! 10 = Some 1
  /\ bufferField (snd (encodeAck newUdpPacketCreator 138 66)) = 10
  /\ sequenceNR (fst (encodeAck newUdpPacketCreator 138 66)) !! (128 + 138)
     = None
  /\ 10 <> 128 + 138.
Proof. repeat split. discriminate. Qed.

(** C10, as amended.  A packet-creation operation changes no counter but
    the one of the buffer written into its frame, and the creator holds
    nothing but the counters: [encodePong] on a frame of buffer [b] (a
    byte) writes [b] into the frame and leaves the counter of every other
    key as it was, the one of buffer 10 included; [encodeAck] for the
    buffer [b] writes [128 + b] modulo 256, which is [128 + b] for a buffer
    below 128 and [b - 128] for a byte from 128 on, and leaves every other
    key as it was; [encodeCmd] writes 10 and leaves every other key as it
    was. *)
Theorem encoders_change_one_counter (u : t) :
  (forall (data : protocolARNetworkAL.t) (k : Z),
     0 <= protocolARNetworkAL.targetBufferID data < 256 ->
     k <> protocolARNetworkAL.targetBufferID data ->
     sequenceNR (fst (encodePong u data)) !! k = sequenceNR u !! k)
  /\ (forall data : protocolARNetworkAL.t,
        0 <= protocolARNetworkAL.targetBufferID data < 256 ->
        bufferField (snd (encodePong u data))
        = protocolARNetworkAL.targetBufferID data)
  /\ (forall b s k : Z,
        k <> (b + 128) mod 256 ->
        sequenceNR (fst (encodeAck u b s)) !! k = sequenceNR u !! k)
  /\ (forall b s : Z,
        bufferField (snd (encodeAck u b s)) = (b + 128) mod 256)
  /\ (forall b : Z,
        (0 <= b < 128 -> (b + 128) mod 256 = 128 + b)
        /\ (128 <= b < 256 -> (b + 128) mod 256 = b - 128))
  /\ (forall (c : ARCommands.Command) (a : ARCommands.encodedArguments) (k : Z),
        k <> 10 ->
        sequenceNR (fst (encodeCmd u c a)) !! k = sequenceNR u !! k)
  /\ (forall (c : ARCommands.Command) (a : ARCommands.encodedArguments),
        bufferField (snd (encodeCmd u c a)) = 10).
Proof.
  repeat apply conj.
  - intros data k Hb Hk. unfold encodePong. cbn [fst].
    rewrite (GoFacts.uint8_small _ Hb).
    rewrite !lookup_incr_other by exact Hk. reflexivity.
  - intros data Hb. unfold encodePong, bufferField. cbn.
    exact (GoFacts.uint8_small _ Hb).
  - intros b s k Hk. unfold encodeAck. cbn [fst].
    apply lookup_incr_other. exact Hk.
  - intros b s. reflexivity.
  - intros b. split; intros Hb.
    + rewrite Z.mod_small; lia.
    + replace (b + 128) with (b - 128 + 1 * 256) by lia.
      rewrite Z.mod_add by lia. apply Z.mod_small. lia.
  - intros c a k Hk. rewrite encodeCmd_creator.
    apply lookup_incr_other. exact Hk.
  - intros c a. reflexivity.
Qed.

(** The theorem at a pong for buffer 0 and an ack for buffer 11, seen from
    the counter of the commands, and at a take-off command, seen from the
    counter of buffer 0. *)
Lemma encoders_change_one_counter_witness :
  sequenceNR (fst (encodePong newUdpPacketCreator
                     (protocolARNetworkAL.mk 2 0 123 8 [170]))) !! 10
  = sequenceNR newUdpPacketCreator !! 10
  /\ sequenceNR (fst (encodeAck newUdpPacketCreator 11 66)) !! 10
     = sequenceNR newUdpPacketCreator !! 10
  /\ sequenceNR (fst (encodeCmd newUdpPacketCreator ARCommands.PilotingTakeOff
                        (ARCommands.mkEncoded []))) !! 0
     = sequenceNR newUdpPacketCreator !! 0.
Proof.
  destruct (encoders_change_one_counter newUdpPacketCreator)
    as (Hp & _ & Ha & _ & _ & Hc & _).
  split; [|split].
  - apply Hp; simpl; lia.
  - apply Ha. vm_compute. discriminate.
  - apply Hc. lia.
Defined.

End CreatorFacts.

(** ** The replies of the dispatcher *)

Module DispatcherFacts.

Import Dispatcher.

Section WithCommandMap.

Variable cmdArgs : Type.
Variable CommandMap : ARCommands.Command -> option (list Z -> Go.outcome cmdArgs).

(** A frame of a ping buffer is answered with one pong and is not decoded
    as a command: the turn ends right after the pong. *)
Lemma handleFrame_ping
  (u : udpPacketCreator.t) (frame : protocolARNetworkAL.t) (lastFrame : bool) :
  protocolARNetworkAL.targetBufferID frame = 0
  \/ protocolARNetworkAL.targetBufferID frame = 1 ->
  handleFrame cmdArgs CommandMap u frame lastFrame
  = (fst (udpPacketCreator.encodePong u frame),
     [snd (udpPacketCreator.encodePong u frame)],
     Go.Returned (if lastFrame then Break else Continue)).
Proof.
  intros Hb. unfold handleFrame.
  destruct (decide _) as [_|Hn]; [|contradiction].
  destruct (udpPacketCreator.encodePong u frame). reflexivity.
Qed.

(** The bytes of a pong: type 2, the buffer, the successor of the counter,
    the constant size field 8, and the payload of the ping. *)
Lemma encodePong_data (u : udpPacketCreator.t) (frame : protocolARNetworkAL.t) :
  0 <= protocolARNetworkAL.targetBufferID frame < 256 ->
  networkUDPPacket.data (snd (udpPacketCreator.encodePong u frame))
  = [2; protocolARNetworkAL.targetBufferID frame;
     Go.uint8 (udpPacketCreator.get u (protocolARNetworkAL.targetBufferID frame) + 1);
     8; 0; 0; 0]
    ++ protocolARNetworkAL.dataARNetwork frame.
Proof.
  intros Hb. unfold udpPacketCreator.encodePong.
  cbn [snd udpPacketCreator.packetOf networkUDPPacket.data].
  rewrite (GoFacts.uint8_small _ Hb), CreatorFacts.get_incr_same. reflexivity.
Qed.

(** A frame of type 4 outside the ping buffers is answered with one ack,
    before it is decoded as a command: type 1, the buffer plus 128 modulo
    256, the sequence number of the frame received, in the header and in
    the payload alike. *)
Lemma handleFrame_ack
  (u : udpPacketCreator.t) (frame : protocolARNetworkAL.t) (lastFrame : bool) :
  protocolARNetworkAL.dataType frame = 4 ->
  protocolARNetworkAL.targetBufferID frame <> 0 ->
  protocolARNetworkAL.targetBufferID frame <> 1 ->
  sent (handleFrame cmdArgs CommandMap u frame lastFrame)
  = [[1; Go.uint8 (protocolARNetworkAL.targetBufferID frame + 128);
      Go.uint8 (protocolARNetworkAL.sequenceNR frame);
      8; 0; 0; 0;
      Go.uint8 (protocolARNetworkAL.sequenceNR frame)]].
Proof.
  intros Ht H0 H1. unfold handleFrame.
  destruct (decide _) as [[Hb|Hb]|_]; [contradiction|contradiction|].
  destruct (decide _) as [_|Hn]; [|contradiction].
  unfold sent, udpPacketCreator.encodeAck. cbn.
  unfold Go.uint8. rewrite Z.mod_mod by lia. reflexivity.
Qed.

(** C1, at the frame [04 0b 42 0b000000 12345678] of the comment in
    [encodeAck].  The dispatcher, holding a fresh creator, emits the one
    ack [01 8b 42 08000000 42]: its own sequence-number field is the number
    0x42 of the frame received, not a number of the ack buffer 139, whose
    counter goes from 0 to 1 without being written into the frame. *)
Theorem ack_carries_received_sequence_number :
  let frame := protocolARNetworkAL.mk 4 11 66 11 [18; 52; 86; 120] in
  let r := handleFrame cmdArgs CommandMap udpPacketCreator.newUdpPacketCreator
             frame true in
  sent r = [[1; 139; 66; 8; 0; 0; 0; 66]]
  /\ udpPacketCreator.get udpPacketCreator.newUdpPacketCreator 139 = 0
  /\ udpPacketCreator.get (creatorAfter r) 139 = 1.
Proof.
  intros frame r. split; [|split].
  - unfold r. rewrite handleFrame_ack; [reflexivity| | |];
      subst frame; simpl; lia.
  - apply CreatorFacts.get_new.
  - subst r frame. vm_compute. reflexivity.
Qed.

(** C2, at a ping on buffer 0 with a payload of two bytes.  The dispatcher,
    holding a fresh creator, emits the one pong
    [02 00 01 08000000 aa bb]: nine bytes whose size field says 8, where
    7 plus the length of the payload is 9; the counter of buffer 0 has
    gone from 0 to 2 for this single frame. *)
Theorem pong_size_field_is_always_eight :
  let frame := protocolARNetworkAL.mk 2 0 123 9 [170; 187] in
  let r := handleFrame cmdArgs CommandMap udpPacketCreator.newUdpPacketCreator
             frame true in
  sent r = [[2; 0; 1; 8; 0; 0; 0; 170; 187]]
  /\ 7 + Z.of_nat (length (protocolARNetworkAL.dataARNetwork frame)) = 9
  /\ udpPacketCreator.get (creatorAfter r) 0 = 2.
Proof.
  intros frame r. subst r.
  rewrite handleFrame_ping by (left; reflexivity).
  subst frame. repeat split.
Qed.

(** What a frame that [decode] returned tells about the packet. *)
Lemma decode_returned
  (packet packet' : networkUDPPacket.t) (frame : protocolARNetworkAL.t)
  (err : option Go.error) :
  0 <= networkUDPPacket.framePos packet ->
  Framing.decode packet = Go.Returned (frame, err, packet') ->
  (err = None
   /\ networkUDPPacket.size packet' = networkUDPPacket.size packet
   /\ networkUDPPacket.framePos packet + 7 <= networkUDPPacket.framePos packet'
   /\ networkUDPPacket.framePos packet' + 7 <= networkUDPPacket.size packet)
  \/ err = Some Go.io_EOF.
Proof.
  intros Hp Hd. unfold Framing.decode in Hd.
  destruct (Go.index _ (_ + 0)) as [dt|]; [|discriminate Hd].
  destruct (Go.index _ (_ + 1)) as [tb|]; [|discriminate Hd].
  destruct (Go.index _ (_ + 2)) as [sq|]; [|discriminate Hd].
  destruct (Go.slice _ (_ + 3) _) as [sz|]; [|discriminate Hd].
  cbn [mbind Go.outcome_bind] in Hd.
  destruct (Go.slice _ (_ + 7) _) as [payload|] eqn:Hs; [|discriminate Hd].
  apply GoFacts.slice_returned in Hs. destruct Hs as (_ & Hsize & _).
  cbn [mbind Go.outcome_bind] in Hd. unfold Framing.headerSize in Hd.
  destruct (decide _) as [Hle|Hgt]; injection Hd as _ He Hpk; subst err packet'.
  - left. cbn [networkUDPPacket.size networkUDPPacket.framePos].
    repeat split; lia.
  - right. reflexivity.
Qed.

(** The loop goes on to a next frame only while [lastFrame] is unset. *)
Lemma handleFrame_continue
  (u : udpPacketCreator.t) (frame : protocolARNetworkAL.t) (lastFrame : bool) :
  snd (handleFrame cmdArgs CommandMap u frame lastFrame) = Go.Returned Continue ->
  lastFrame = false.
Proof.
  unfold handleFrame.
  destruct (decide _) as [Hb|Hb].
  - destruct (udpPacketCreator.encodePong u frame). cbn [snd].
    destruct lastFrame; [discriminate|reflexivity].
  - destruct (decide _); [destruct (udpPacketCreator.encodeAck _ _ _)|];
      cbn [snd]; destruct (frameDecode cmdArgs CommandMap frame) as [[[c a] [e0|]]|];
      cbn; destruct lastFrame; congruence.
Qed.

(** X1.  The loop over the frames of a packet ends, whatever the datagram
    holds: a fuel beyond the number of bytes left behind the cursor is
    never used up, every turn that goes on to a next frame having moved
    the cursor forward by seven bytes at least. *)
Lemma handlePacket_terminates (fuel : nat) :
  forall (u : udpPacketCreator.t) (packet : networkUDPPacket.t) (lastFrame : bool),
    0 <= networkUDPPacket.framePos packet ->
    (Z.to_nat (networkUDPPacket.size packet - networkUDPPacket.framePos packet)
     < fuel)%nat ->
    snd (handlePacket cmdArgs CommandMap fuel u packet lastFrame) <> OutOfFuel.
Proof.
  induction fuel as [|fuel IH]; intros u packet lastFrame Hp Hfuel; [lia|].
  cbn [handlePacket].
  destruct (Framing.decode packet) as [[[frame err] packet']|] eqn:Hd;
    [|discriminate].
  set (lf := match err with Some Go.io_EOF => true | _ => lastFrame end).
  pose proof (handleFrame_continue u frame lf) as Hc.
  destruct (handleFrame cmdArgs CommandMap u frame lf) as [[u1 out] [[|]|]];
    cbn [snd] in *; try discriminate.
  specialize (Hc eq_refl).
  destruct (decode_returned _ _ _ _ Hp Hd) as [(He & Hs & Hadv & Hroom)|He].
  - specialize (IH u1 packet' lf ltac:(lia) ltac:(lia)).
    destruct (handlePacket cmdArgs CommandMap fuel u1 packet' lf) as [[u2 more] st].
    exact IH.
  - subst err. unfold lf in Hc. discriminate Hc.
Qed.

(** The datagram [02 00 7b 08000000 aa] is answered with the one pong
    [02 00 01 08000000 aa], and the loop is done with the packet. *)
Example ping_is_answered_with_one_pong :
  handlePacket cmdArgs CommandMap 9 udpPacketCreator.newUdpPacketCreator
    (Framing.received [2; 0; 123; 8; 0; 0; 0; 170]) false
  = (udpPacketCreator.incr (udpPacketCreator.incr udpPacketCreator.newUdpPacketCreator 0) 0,
     [udpPacketCreator.packetOf [2; 0; 1; 8; 0; 0; 0; 170]], Done).
Proof. vm_compute. reflexivity. Qed.

End WithCommandMap.

End DispatcherFacts.

(** ** The frames of the input router *)

Module InputFacts.

Import Input.

(** Every frame of [encodeCmd] starts with the type 2 and the buffer 10,
    whatever the command. *)
Lemma encodeCmd_header {A : Type} `{ARCommands.Encoder A}
  (u : udpPacketCreator.t) (c : ARCommands.Command) (a : A) :
  take 2 (networkUDPPacket.data (snd (udpPacketCreator.encodeCmd u c a)))
  = [2; 10].
Proof. reflexivity. Qed.

(** Whatever the action, the piloting state and the creator, every frame
    the input router hands over starts with the type 2 and the buffer 10. *)
Lemma handleInputAction_header
  (PilotingLanding PilotingPCMD : ARCommands.Command)
  (Ardrone3PilotingLandingArguments : ARCommands.encodedArguments)
  (pcmd : ARCommands.Ardrone3PilotingPCMDArguments)
  (u : udpPacketCreator.t) (action : inputAction) :
  Forall (fun s => match s with
                   | chSendingUDPPacket p | chPcmdPacketScheduler p =>
                       take 2 (networkUDPPacket.data p) = [2; 10]
                   end)
    (snd (handleInputAction PilotingLanding PilotingPCMD
            Ardrone3PilotingLandingArguments pcmd u action)).
Proof.
  destruct action; cbn [handleInputAction snd];
    try (apply Forall_nil; exact I);
    apply Forall_cons; (split; [reflexivity|apply Forall_nil; exact I]).
Qed.

(** C5, at the action Takeoff on a new drone with a fresh creator.  The
    input router hands the one frame [02 0a 01 0b000000 01 00 0100] to
    [chSendingUDPPacket]: its first two bytes are the type 2 and the buffer
    10 of the data without ack, not 0x04 and 0x0b. *)
Theorem takeoff_is_sent_without_ack
  (PilotingLanding PilotingPCMD : ARCommands.Command)
  (Ardrone3PilotingLandingArguments : ARCommands.encodedArguments) :
  snd (handleInputAction PilotingLanding PilotingPCMD
         Ardrone3PilotingLandingArguments pcmdZero
         udpPacketCreator.newUdpPacketCreator ActionTakeoff)
  = [chSendingUDPPacket
       (udpPacketCreator.packetOf [2; 10; 1; 11; 0; 0; 0; 1; 0; 1; 0])].
Proof. reflexivity. Qed.

End InputFacts.

(** ** The waypoint buffer *)

Module MoveToFacts.

Import MoveTo.

Section WithGrowth.

Variable spare : nat -> nat.

Lemma length_elems (s : waypointSlice) :
  wellFormed s -> length (elems s) = len s.
Proof. unfold wellFormed, elems. intros Hw. rewrite length_take. lia. Qed.

(** [append] puts the new element behind the elements of the slice, in
    place or in the new array. *)
Lemma elems_append1 (s : waypointSlice) (d : gpsLatLonAlt) :
  wellFormed s -> elems (append1 spare s d) = elems s ++ [d].
Proof.
  intros Hw. unfold append1.
  destruct (decide (len s < length (arr s))%nat) as [Hlt|Hge].
  - unfold elems. cbn [arr len].
    rewrite (take_S_r _ _ d) by (apply list_lookup_insert_eq; exact Hlt).
    rewrite take_insert_ge by lia. reflexivity.
  - unfold elems at 1. cbn [arr len].
    rewrite app_assoc.
    apply take_app_length'.
    rewrite length_app, length_elems by exact Hw. simpl. lia.
Qed.

Lemma wellFormed_append1 (s : waypointSlice) (d : gpsLatLonAlt) :
  wellFormed s -> wellFormed (append1 spare s d).
Proof.
  intros Hw. unfold append1, wellFormed.
  destruct (decide (len s < length (arr s))%nat) as [Hlt|Hge]; cbn [arr len].
  - rewrite length_insert. lia.
  - rewrite !length_app, length_elems by exact Hw. simpl. lia.
Qed.

(** Moving the tail of a slice to its front leaves the elements after the
    first, in their order. *)
Lemma elems_dropFirst (s : waypointSlice) :
  wellFormed s -> len s <> 0%nat -> elems (dropFirst s) = drop 1 (elems s).
Proof.
  intros Hw Hn. unfold dropFirst, elems. cbn [arr len].
  rewrite take_app_length.
  replace (len s) with (1 + (len s - 1))%nat at 2 by lia.
  apply take_drop_commute.
Qed.

Lemma wellFormed_dropFirst (s : waypointSlice) :
  wellFormed s -> wellFormed (dropFirst s).
Proof.
  intros Hw. unfold dropFirst, wellFormed in *. cbn [arr len].
  rewrite length_app. lia.
Qed.

Lemma wellFormed_nil : wellFormed (waypoints newMoveToHandler).
Proof. unfold wellFormed. simpl. lia. Qed.

(** C9.  The waypoint buffer is a first-in first-out queue:
    [pushWayPointNew] puts the waypoint behind the ones held;
    [pullWayPointNext] on a buffer holding [v] first and [rest] behind it
    returns [v] without error and leaves exactly [rest], in its order; on
    an empty buffer it returns the error [io.EOF] and leaves the buffer as
    it was. *)
Theorem waypoint_buffer_is_fifo (s : moveToBuffer) :
  wellFormed (waypoints s) ->
  (forall d : gpsLatLonAlt,
     elems (waypoints (pushWayPointNew spare s d)) = elems (waypoints s) ++ [d]
     /\ wellFormed (waypoints (pushWayPointNew spare s d)))
  /\ (forall (v : gpsLatLonAlt) (rest : list gpsLatLonAlt),
        elems (waypoints s) = v :: rest ->
        exists s' : moveToBuffer,
          pullWayPointNext s = (v, None, s')
          /\ elems (waypoints s') = rest
          /\ wellFormed (waypoints s'))
  /\ (elems (waypoints s) = [] ->
      pullWayPointNext s = (gpsZero, Some Go.io_EOF, s)).
Proof.
  intros Hw. split; [|split].
  - intros d. split.
    + apply elems_append1. exact Hw.
    + apply wellFormed_append1. exact Hw.
  - intros v rest He.
    assert (len (waypoints s) <> 0%nat) as Hn.
    { intros H0. unfold elems in He. rewrite H0 in He. discriminate He. }
    exists (mkBuffer (dropFirst (waypoints s))).
    unfold pullWayPointNext.
    destruct (decide (len (waypoints s) = 0%nat)) as [H0|_]; [contradiction|].
    cbn [waypoints]. split; [|split].
    + f_equal. f_equal.
      assert (elems (waypoints s) !! 0%nat = Some v) as Hv by (rewrite He; reflexivity).
      unfold elems in Hv. rewrite lookup_take_lt in Hv by lia.
      rewrite Hv. reflexivity.
    + rewrite elems_dropFirst by assumption. rewrite He. reflexivity.
    + apply wellFormed_dropFirst. exact Hw.
  - intros He. unfold pullWayPointNext.
    destruct (decide (len (waypoints s) = 0%nat)) as [_|Hn]; [reflexivity|].
    exfalso. pose proof (length_elems _ Hw) as Hl.
    rewrite He in Hl. simpl in Hl. lia.
Qed.

End WithGrowth.

(** The theorem on the buffer that was given two waypoints: the buffer is
    well formed and hands out the first of them. *)
Lemma waypoint_buffer_is_fifo_witness :
  wellFormed (waypoints twoWaypoints)
  /\ elems (waypoints twoWaypoints) = [mkGps 59 10 30; mkGps 60 11 40]
  /\ exists s' : moveToBuffer,
       pullWayPointNext twoWaypoints = (mkGps 59 10 30, None, s')
       /\ elems (waypoints s') = [mkGps 60 11 40].
Proof.
  assert (wellFormed (waypoints twoWaypoints)) as Hw
    by (unfold wellFormed; simpl; lia).
  split; [exact Hw|]. split; [reflexivity|].
  destruct (waypoint_buffer_is_fifo doubling twoWaypoints Hw)
    as (_ & Hpull & _).
  destruct (Hpull (mkGps 59 10 30) [mkGps 60 11 40] eq_refl)
    as (s' & Hp & He & _).
  exists s'. split; assumption.
Defined.

(** Waypoints pushed one after the other come out in the order they went
    in. *)
Example two_waypoints_come_out_in_order :
  let a := mkGps 59 10 30 in
  let b := mkGps 60 11 40 in
  let '(v1, e1, s1) := pullWayPointNext twoWaypoints in
  let '(v2, e2, s2) := pullWayPointNext s1 in
  let '(v3, e3, s3) := pullWayPointNext s2 in
  (v1, e1) = (a, None) /\ (v2, e2) = (b, None)
  /\ (v3, e3) = (gpsZero, Some Go.io_EOF) /\ s3 = s2.
Proof. vm_compute. repeat split. Qed.

(** C6, the claim as stated fails.  A waypoint whose altitude is the
    sentinel 500 is taken into the buffer, and so is a waypoint whose
    latitude is 91, which is not inside the open interval from -91 to 91. *)
Lemma sentinel_altitude_is_taken :
  elems (waypoints
           (startWayPointReceiver doubling newMoveToHandler (mkGps 0 0 500)))
  = [mkGps 0 0 500]
  /\ elems (waypoints
              (startWayPointReceiver doubling newMoveToHandler (mkGps 91 0 30)))
     = [mkGps 91 0 30].
Proof. split; reflexivity. Qed.

(** C6, as amended.  At waypoint ingest a waypoint is dropped, the buffer
    staying as it was, exactly when its latitude is greater than 91 or less
    than -91, or its longitude is greater than 181 or less than -181, in
    the comparisons of binary64; every other waypoint is put at the tail of
    the buffer.  The altitude takes no part in the decision, and the bounds
    themselves are accepted. *)
Theorem ingest_checks_latitude_and_longitude
  (spare : nat -> nat) (s : moveToBuffer) (wp : gpsLatLonAlt) :
  wellFormed (waypoints s) ->
  let outside :=
    PrimFloat.ltb 91 (latitude wp) || PrimFloat.ltb (latitude wp) (-91)
    || PrimFloat.ltb 181 (longitude wp) || PrimFloat.ltb (longitude wp) (-181) in
  (outside = true -> startWayPointReceiver spare s wp = s)
  /\ (outside = false ->
      elems (waypoints (startWayPointReceiver spare s wp))
      = elems (waypoints s) ++ [wp]).
Proof.
  intros Hw outside. subst outside. unfold startWayPointReceiver.
  destruct (PrimFloat.ltb 91 (latitude wp));
    destruct (PrimFloat.ltb (latitude wp) (-91));
    destruct (PrimFloat.ltb 181 (longitude wp));
    destruct (PrimFloat.ltb (longitude wp) (-181));
    cbn [orb]; split; intros Ho; try discriminate Ho; try reflexivity.
  apply elems_append1. exact Hw.
Qed.

(** The theorem at a waypoint over Oslo arriving at an empty buffer. *)
Lemma ingest_checks_latitude_and_longitude_witness :
  wellFormed (waypoints newMoveToHandler)
  /\ elems (waypoints
              (startWayPointReceiver doubling newMoveToHandler
                 (mkGps 59.5 10.75 120)))
     = [mkGps 59.5 10.75 120].
Proof.
  split; [exact wellFormed_nil|].
  destruct (ingest_checks_latitude_and_longitude doubling newMoveToHandler
              (mkGps 59.5 10.75 120) wellFormed_nil) as [_ Hin].
  rewrite Hin; reflexivity.
Defined.

End MoveToFacts.

(** ** The PCMD scheduler *)

Module SchedulerFacts.

Import Scheduler.

Lemma ordered_make {A : Type} (n : nat) : ordered (@make A n).
Proof. left. reflexivity. Qed.

Lemma send_ordered {A : Type} (ch : chan A) (v : A) :
  ordered ch -> ordered (send ch v) /\ pending (send ch v) = pending ch ++ [v].
Proof.
  intros Ho. unfold send, pending, ordered in *.
  destruct (decide (length (buf ch) < cap ch)%nat) as [Hroom|Hfull]; cbn [buf sendq cap].
  - destruct Ho as [Hq|Hc]; [|lia]. rewrite Hq. split; [left; reflexivity|].
    rewrite !app_nil_r. reflexivity.
  - split; [right; lia|]. rewrite app_assoc. reflexivity.
Qed.

Lemma tryRecv_ordered {A : Type} (ch : chan A) :
  ordered ch ->
  match tryRecv ch with
  | Some (v, ch') => ordered ch' /\ pending ch = v :: pending ch'
  | None => pending ch = []
  end.
Proof.
  intros Ho. unfold tryRecv, pending, ordered in *.
  destruct (buf ch) as [|v rest] eqn:Hb.
  - destruct (sendq ch) as [|w waiting] eqn:Hq; [reflexivity|].
    cbn [buf sendq cap]. split; [|reflexivity].
    destruct Ho as [Hn|Hc]; [discriminate Hn|]. right. simpl in *. lia.
  - cbn [buf sendq cap]. split.
    + destruct (sendq ch) as [|w waiting]; [left; reflexivity|].
      destruct Ho as [Hn|Hc]; [discriminate Hn|]. right.
      simpl in *. rewrite length_app. simpl. lia.
    + simpl. f_equal. rewrite <- app_assoc, take_drop. reflexivity.
Qed.

(** One firing of the timer forwards the oldest pending packet, or
    nothing. *)
Lemma tick_forwards_oldest (s : state) :
  ordered (chPcmdPacketScheduler s) ->
  ordered (chPcmdPacketScheduler (tick s))
  /\ forwarded (tick s) ++ pending (chPcmdPacketScheduler (tick s))
     = forwarded s ++ pending (chPcmdPacketScheduler s).
Proof.
  intros Ho. unfold tick.
  pose proof (tryRecv_ordered _ Ho) as Hr.
  destruct (tryRecv (chPcmdPacketScheduler s)) as [[p ch]|].
  - destruct Hr as [Ho' Hp]. cbn [chPcmdPacketScheduler forwarded].
    split; [exact Ho'|]. rewrite Hp, <- app_assoc. reflexivity.
  - split; [exact Ho|reflexivity].
Qed.

Lemma tick_at_most_one (s : state) :
  (length (forwarded (tick s)) <= S (length (forwarded s)))%nat.
Proof.
  unfold tick. destruct (tryRecv (chPcmdPacketScheduler s)) as [[p ch]|].
  - cbn [forwarded]. rewrite length_app. simpl. lia.
  - lia.
Qed.

Lemma run_keeps_every_packet (es : list event) :
  forall s : state,
    ordered (chPcmdPacketScheduler s) ->
    ordered (chPcmdPacketScheduler (run s es))
    /\ forwarded (run s es) ++ pending (chPcmdPacketScheduler (run s es))
       = forwarded s ++ pending (chPcmdPacketScheduler s) ++ produced es
    /\ (length (forwarded (run s es)) <= length (forwarded s) + ticks es)%nat.
Proof.
  induction es as [|e es IH]; intros s Ho.
  - cbn [run fold_left produced ticks]. rewrite app_nil_r. repeat split; [exact Ho|lia].
  - change (run s (e :: es)) with (run (step s e) es). destruct e as [p|].
    + destruct (send_ordered (chPcmdPacketScheduler s) p Ho) as [Ho' Hp].
      destruct (IH (step s (Produce p)) Ho') as (H1 & H2 & H3).
      cbn [step chPcmdPacketScheduler forwarded] in H1, H2, H3 |- *.
      split; [exact H1|]. split.
      * rewrite H2, Hp. cbn [produced]. rewrite <- !app_assoc. reflexivity.
      * cbn [ticks]. exact H3.
    + destruct (tick_forwards_oldest s Ho) as [Ho' Hp].
      destruct (IH (step s Tick) Ho') as (H1 & H2 & H3).
      cbn [step] in H1, H2, H3 |- *.
      split; [exact H1|]. split.
      * rewrite H2. cbn [produced]. rewrite !app_assoc, Hp. reflexivity.
      * pose proof (tick_at_most_one s). cbn [ticks]. lia.
Qed.

(** C7, the claim as stated fails.  Two PCMD packets produced before the
    timer fires are both forwarded, the older at the first firing and the
    latest at the second: the older one is not discarded, and the latest
    one is delivered a full period after it was produced. *)
Lemma pending_packets_are_not_coalesced :
  forwarded (run NewDrone [Produce olderPcmd; Produce latestPcmd; Tick; Tick])
  = [olderPcmd; latestPcmd]
  /\ forwarded (run NewDrone [Produce olderPcmd; Produce latestPcmd; Tick])
     = [olderPcmd]
  /\ olderPcmd <> latestPcmd.
Proof. repeat split. discriminate. Qed.

(** C7, as amended.  The scheduler forwards at most one PCMD packet to the
    outbound queue per firing of its 50 ms timer, and the packets waiting
    for it are queued, not coalesced: whatever the input router produces
    and whenever the timer fires, the packets forwarded followed by the
    packets still pending are the packets produced, each once and in the
    order of production; a firing that finds packets pending forwards the
    oldest of them and leaves the others pending, in their order, and a
    firing that finds none changes nothing, so that none is discarded. *)
Theorem scheduler_queues_pcmd_packets :
  (forall s : state,
     (length (forwarded (tick s)) <= S (length (forwarded s)))%nat)
  /\ (forall es : list event,
        forwarded (run NewDrone es)
        ++ pending (chPcmdPacketScheduler (run NewDrone es))
        = produced es
        /\ (length (forwarded (run NewDrone es)) <= ticks es)%nat)
  /\ (forall es : list event,
        match pending (chPcmdPacketScheduler (run NewDrone es)) with
        | oldest :: others =>
            forwarded (tick (run NewDrone es))
            = forwarded (run NewDrone es) ++ [oldest]
            /\ pending (chPcmdPacketScheduler (tick (run NewDrone es)))
               = others
        | [] => tick (run NewDrone es) = run NewDrone es
        end).
Proof.
  split; [exact tick_at_most_one|]. split.
  - intros es.
    destruct (run_keeps_every_packet es NewDrone (ordered_make 100))
      as (_ & Hq & Hn).
    split; [exact Hq|exact Hn].
  - intros es.
    destruct (run_keeps_every_packet es NewDrone (ordered_make 100))
      as (Ho & _ & _).
    pose proof (tryRecv_ordered _ Ho) as Hr. unfold tick.
    destruct (tryRecv (chPcmdPacketScheduler (run NewDrone es)))
      as [[p ch]|].
    + destruct Hr as [_ Hp]. rewrite Hp.
      cbn [forwarded chPcmdPacketScheduler]. split; reflexivity.
    + rewrite Hr. reflexivity.
Qed.

End SchedulerFacts.

(** ** The discovery handshake *)

Module DiscoveryFacts.

Import Discovery.

(** C8, the claim as stated fails.  On a response that parses and carries
    the status 1, [Discover] returns nothing to its caller: the process
    exits in [log.Fatal]. *)
Lemma rejected_discovery_exits_the_process :
  Status (unmarshalled (parsedResponse 1 54321)) <> 0
  /\ unmarshalErr (parsedResponse 1 54321) = None
  /\ Discover NewDrone (parsedResponse 1 54321) = ProcessExits 1.
Proof. repeat split. simpl. lia. Qed.

(** C8, as amended.  [Discover] returns an error value to its caller when
    the connection or the reading of the response fails.  When the
    response parses, a status other than 0 ends the process in [log.Fatal]
    instead of returning an error, and the status 0 makes [Discover] return
    success with the C2D port taken from the field [c2d_port]. *)
Theorem Discover_returns_or_exits (d : Drone) (net : answers) :
  (forall err : Go.error,
     dialErr net = Some err -> Discover d net = Returns (d, Some err))
  /\ (forall err : Go.error,
        dialErr net = None -> readErr net = Some err ->
        Discover d net = Returns (d, Some err))
  /\ (dialErr net = None -> readErr net = None -> unmarshalErr net = None ->
      (Status (unmarshalled net) <> 0 -> Discover d net = ProcessExits 1)
      /\ (Status (unmarshalled net) = 0 ->
          Discover d net
          = Returns (withPortC2D d (Itoa (C2dPort (unmarshalled net))), None)
          /\ portC2D (withPortC2D d (Itoa (C2dPort (unmarshalled net))))
             = Itoa (C2dPort (unmarshalled net)))).
Proof.
  unfold Discover. split; [|split].
  - intros err Hd. rewrite Hd. reflexivity.
  - intros err Hd Hr. rewrite Hd, Hr. reflexivity.
  - intros Hd Hr _. rewrite Hd, Hr. split; intros Hs.
    + destruct (decide (Status (unmarshalled net) <> 0));
        [reflexivity|contradiction].
    + destruct (decide (Status (unmarshalled net) <> 0)); [contradiction|].
      split; reflexivity.
Qed.

(** The theorem at the response of the discovery round trip: status 0 and
    [c2d_port] 54321. *)
Lemma Discover_returns_or_exits_witness :
  dialErr (parsedResponse 0 54321) = None
  /\ readErr (parsedResponse 0 54321) = None
  /\ unmarshalErr (parsedResponse 0 54321) = None
  /\ Status (unmarshalled (parsedResponse 0 54321)) = 0
  /\ Discover NewDrone (parsedResponse 0 54321)
     = Returns (withPortC2D NewDrone "54321"%string, None).
Proof.
  repeat (split; [reflexivity|]).
  destruct (Discover_returns_or_exits NewDrone (parsedResponse 0 54321))
    as (_ & _ & Hok).
  destruct (Hok eq_refl eq_refl eq_refl) as [_ Hzero].
  destruct (Hzero eq_refl) as [Hret _].
  rewrite Hret. reflexivity.
Defined.

(** The error of [json.Unmarshal] is logged and not looked at again. *)
Lemma Discover_does_not_read_unmarshal_error
  (d : Drone) (net : answers) (err : option Go.error) :
  Discover d (mkAnswers (dialErr net) (writeErr net) (readErr net)
                (unmarshalled net) err)
  = Discover d net.
Proof. reflexivity. Qed.

End DiscoveryFacts.

(** ** Commands between replies *)

Module CallsFacts.

Import udpPacketCreator Calls.

(** A reply leaves the counter of buffer 10 alone. *)
Lemma perform_reply_keeps_commands (u : t) (k : call) :
  reply k -> isCmd k = false -> get (fst (perform u k)) 10 = get u 10.
Proof.
  destruct k as [c a|b s|data]; cbn [reply isCmd perform]; intros Hr Hk;
    [discriminate Hk| |].
  - unfold encodeAck. cbn [fst]. apply CreatorFacts.get_incr_other.
    destruct Hr as [Hb Hn]. unfold Go.uint8. intros Heq.
    destruct (decide (b < 128)).
    + rewrite Z.mod_small in Heq by lia. lia.
    + replace (b + 128) with (b - 128 + 1 * 256) in Heq by lia.
      rewrite Z.mod_add, Z.mod_small in Heq by lia. lia.
  - unfold encodePong. cbn [fst].
    assert (0 <= protocolARNetworkAL.targetBufferID data < 256) as Hb
      by (destruct Hr as [H|H]; rewrite H; lia).
    rewrite (GoFacts.uint8_small _ Hb).
    rewrite !CreatorFacts.get_incr_other
      by (destruct Hr as [H|H]; rewrite H; lia).
    reflexivity.
Qed.

(** The numbers of the commands of a run from any creator. *)
Lemma commandNumbers_from (calls : list call) :
  forall u : t,
    Forall reply calls ->
    commandNumbers calls (snd (performAll u calls))
    = map (fun i => (get u 10 + 1 + Z.of_nat i) mod 256)
        (seq 0 (length (List.filter isCmd calls))).
Proof.
  induction calls as [|k rest IH]; intros u Hall; [reflexivity|].
  apply Forall_cons in Hall. destruct Hall as [Hk Hrest].
  cbn [performAll].
  destruct (perform u k) as [u1 p] eqn:Hp.
  specialize (IH u1 Hrest).
  destruct (performAll u1 rest) as [u2 ps]. cbn [snd] in IH |- *.
  unfold commandNumbers in IH |- *. cbn [zip zip_with].
  rewrite filter_cons. cbn [fst List.filter].
  destruct (isCmd k) eqn:Hc.
  - destruct (decide (true = true)) as [_|Hn]; [|congruence].
    destruct k as [c a| |]; try discriminate Hc. cbn [perform] in Hp.
    pose proof (CreatorFacts.encodeCmd_sequenceField u c a) as Hs.
    pose proof (CreatorFacts.encodeCmd_get u c a) as Hg.
    rewrite Hp in Hs, Hg. cbn [fst snd] in Hs, Hg.
    cbn [map length seq snd]. f_equal.
    + rewrite Hs. f_equal. lia.
    + rewrite IH, <- seq_shift, map_map. apply map_ext. intros i.
      rewrite Hg, Nat2Z.inj_succ.
      rewrite <- Z.add_assoc, Zplus_mod_idemp_l. f_equal. lia.
  - destruct (decide (false = true)) as [Hn|_]; [discriminate Hn|].
    rewrite IH.
    pose proof (perform_reply_keeps_commands u k Hk Hc) as Hg.
    rewrite Hp in Hg. cbn [fst] in Hg. rewrite Hg. reflexivity.
Qed.

(** X8.  The replies of the dispatcher do not disturb the numbering of the
    commands: in any run of calls on a fresh creator that mixes [encodeCmd]
    with the pongs for the buffers 0 and 1 and the acks for buffers other
    than 138, the command frames carry the numbers 1, 2, ..., N modulo
    256, in order, [N] being the number of commands in the run. *)
Theorem replies_do_not_disturb_command_numbers (calls : list call) :
  Forall reply calls ->
  commandNumbers calls (snd (performAll newUdpPacketCreator calls))
  = map (fun i => (Z.of_nat i + 1) mod 256)
      (seq 0 (length (List.filter isCmd calls))).
Proof.
  intros Hall. rewrite commandNumbers_from by exact Hall.
  apply map_ext. intros i. rewrite CreatorFacts.get_new. f_equal. lia.
Qed.

(** The theorem on a take-off, an ack for buffer 11, a pong on buffer 0 and
    a second take-off. *)
Lemma replies_do_not_disturb_command_numbers_witness :
  commandNumbers
    [callCmd ARCommands.PilotingTakeOff (ARCommands.mkEncoded []);
     callAck 11 66;
     callPong (protocolARNetworkAL.mk 2 0 123 8 [170]);
     callCmd ARCommands.PilotingTakeOff (ARCommands.mkEncoded [])]
    (snd (performAll newUdpPacketCreator
       [callCmd ARCommands.PilotingTakeOff (ARCommands.mkEncoded []);
        callAck 11 66;
        callPong (protocolARNetworkAL.mk 2 0 123 8 [170]);
        callCmd ARCommands.PilotingTakeOff (ARCommands.mkEncoded [])]))
  = [1; 2].
Proof.
  rewrite replies_do_not_disturb_command_numbers; [reflexivity|].
  repeat constructor; simpl; lia.
Defined.

End CallsFacts.

(** ** Frames on the wire *)

Module WireFacts.

Ltac step_bind := cbn [mbind Go.outcome_bind].

(** Reading back what [binary.Write] wrote. *)
Lemma Conv_putUint32LE (v : Z) :
  0 <= v < 2 ^ 32 ->
  Framing.ConvLittleEndianSliceToNumeric (Go.putUint32LE v) = v.
Proof.
  intros Hv. unfold Go.putUint32LE. cbn [Framing.ConvLittleEndianSliceToNumeric].
  replace 65536 with (256 * 256) by reflexivity.
  replace 16777216 with (256 * 256 * 256) by reflexivity.
  rewrite <- !Z.div_div by lia.
  pose proof (Z.div_mod v 256 ltac:(lia)) as H1.
  pose proof (Z.div_mod (v / 256) 256 ltac:(lia)) as H2.
  pose proof (Z.div_mod (v / 256 / 256) 256 ltac:(lia)) as H3.
  assert (0 <= v / 256 / 256 / 256 < 256) as H4.
  { split.
    - repeat apply Z.div_pos; lia.
    - repeat (apply Z.div_lt_upper_bound; [lia|]). lia. }
  rewrite (Z.mod_small (v / 256 / 256 / 256)) by exact H4. lia.
Qed.

Lemma Conv_putUint16LE (v : Z) :
  0 <= v < 65536 ->
  Framing.ConvLittleEndianSliceToNumeric (Go.putUint16LE v) = v.
Proof.
  intros Hv. unfold Go.putUint16LE. cbn [Framing.ConvLittleEndianSliceToNumeric].
  pose proof (Z.div_mod v 256 ltac:(lia)) as H1.
  assert (0 <= v / 256 < 256) as H2.
  { split; [apply Z.div_pos; lia|apply Z.div_lt_upper_bound; lia]. }
  rewrite (Z.mod_small (v / 256)) by exact H2. lia.
Qed.

Lemma length_putUint32LE (v : Z) : length (Go.putUint32LE v) = 4%nat.
Proof. reflexivity. Qed.

Lemma length_bytesOf (f : protocolARNetworkAL.t) :
  Wire.sized f ->
  Z.of_nat (length (Wire.bytesOf f)) = protocolARNetworkAL.size f.
Proof.
  intros [Hs _]. unfold Wire.bytesOf. rewrite !length_app. simpl. lia.
Qed.

(** [decode] at the start of a frame laid out in the buffer. *)
Lemma decode_bytesOf (pre post : list Z) (f : protocolARNetworkAL.t) (n : Z) :
  Wire.sized f ->
  let data := pre ++ Wire.bytesOf f ++ post in
  let p := Z.of_nat (length pre) in
  Framing.decode (networkUDPPacket.mk n data p)
  = Go.Returned
      (f,
       (if decide (p + protocolARNetworkAL.size f + 7 <= n)
        then None else Some Go.io_EOF),
       (if decide (p + protocolARNetworkAL.size f + 7 <= n)
        then networkUDPPacket.mk n data (p + protocolARNetworkAL.size f)
        else networkUDPPacket.mk n data p)).
Proof.
  intros [Hs Hlt] data p. destruct f as [dt tb sq sz payload].
  cbn [protocolARNetworkAL.size protocolARNetworkAL.dataARNetwork] in *.
  unfold Framing.decode.
  cbn [networkUDPPacket.data networkUDPPacket.framePos networkUDPPacket.size].
  assert (forall i b, (i < 3)%nat -> [dt; tb; sq] !! i = Some b ->
            Go.index data (p + Z.of_nat i) = Go.Returned b) as Hidx.
  { intros i b Hi Hb. unfold Go.index.
    destruct (decide (0 <= p + Z.of_nat i)) as [_|Hn]; [|lia].
    replace (Z.to_nat (p + Z.of_nat i)) with (length pre + i)%nat by lia.
    unfold data, Wire.bytesOf.
    cbn [protocolARNetworkAL.dataType protocolARNetworkAL.targetBufferID
         protocolARNetworkAL.sequenceNR].
    rewrite lookup_app_r by lia.
    replace (length pre + i - length pre)%nat with i by lia.
    rewrite <- !app_assoc.
    rewrite (lookup_app_l [dt; tb; sq]) by (simpl; lia).
    rewrite Hb. reflexivity. }
  pose proof (Hidx 0%nat dt ltac:(lia) eq_refl) as H0.
  pose proof (Hidx 1%nat tb ltac:(lia) eq_refl) as H1.
  pose proof (Hidx 2%nat sq ltac:(lia) eq_refl) as H2.
  change (Z.of_nat 0) with 0 in H0. change (Z.of_nat 1) with 1 in H1.
  change (Z.of_nat 2) with 2 in H2.
  rewrite H0, H1, H2.
  step_bind.
  assert (Z.of_nat (length data) = p + sz + Z.of_nat (length post)) as Hlen.
  { unfold data, Wire.bytesOf. rewrite !length_app. simpl. lia. }
  rewrite GoFacts.slice_in_range by lia. step_bind.
  replace (Z.to_nat (p + 7 - (p + 3))) with 4%nat by lia.
  replace (Z.to_nat (p + 3)) with (length pre + 3)%nat by lia.
  assert (take 4 (drop (length pre + 3) data) = Go.putUint32LE sz) as Hsz.
  { unfold data, Wire.bytesOf. cbn [protocolARNetworkAL.dataType
      protocolARNetworkAL.targetBufferID protocolARNetworkAL.sequenceNR
      protocolARNetworkAL.size protocolARNetworkAL.dataARNetwork].
    rewrite drop_app_add. reflexivity. }
  rewrite Hsz, Conv_putUint32LE by lia.
  rewrite GoFacts.slice_in_range by lia. step_bind.
  replace (Z.to_nat (p + sz - (p + 7))) with (length payload) by lia.
  replace (Z.to_nat (p + 7)) with (length pre + 7)%nat by lia.
  assert (take (length payload) (drop (length pre + 7) data) = payload) as Hpl.
  { unfold data, Wire.bytesOf. cbn [protocolARNetworkAL.dataType
      protocolARNetworkAL.targetBufferID protocolARNetworkAL.sequenceNR
      protocolARNetworkAL.size protocolARNetworkAL.dataARNetwork].
    rewrite drop_app_add. cbn [app drop Go.putUint32LE].
    apply take_app_length. }
  rewrite Hpl. unfold Framing.headerSize.
  destruct (decide (p + sz + 7 <= n)); reflexivity.
Qed.


(** The frame of [encodeCmd], as long as its length fits the size field. *)
Lemma encodeCmd_bytesOf (u : udpPacketCreator.t) (c : ARCommands.Command)
  (a : ARCommands.encodedArguments) :
  Z.of_nat (length (ARCommands.encodedBytes a)) + 11 < 2 ^ 32 ->
  networkUDPPacket.data (snd (udpPacketCreator.encodeCmd u c a))
  = Wire.bytesOf
      (protocolARNetworkAL.mk 2 10 ((udpPacketCreator.get u 10 + 1) mod 256)
         (11 + Z.of_nat (length (ARCommands.encodedBytes a)))
         (ARCommands.convertCMDToBytes c ++ ARCommands.encodedBytes a)).
Proof.
  intros Hlen. unfold udpPacketCreator.encodeCmd, Wire.bytesOf.
  cbn [snd udpPacketCreator.packetOf networkUDPPacket.data
       protocolARNetworkAL.dataType protocolARNetworkAL.targetBufferID
       protocolARNetworkAL.sequenceNR protocolARNetworkAL.size
       protocolARNetworkAL.dataARNetwork].
  rewrite CreatorFacts.get_incr_same.
  change (ARCommands.Encode a) with (ARCommands.encodedBytes a).
  assert (length (ARCommands.convertCMDToBytes c) = 4%nat) as Hc by reflexivity.
  rewrite Hc. unfold Go.uint32.
  change (Z.of_nat 4 mod 2 ^ 32) with 4.
  rewrite (Z.mod_small (Z.of_nat _)) by lia.
  rewrite (Z.mod_small (4 + _)) by lia.
  rewrite (Z.mod_small (4 + _ + 7)) by lia.
  replace (4 + Z.of_nat (length (ARCommands.encodedBytes a)) + 7)
    with (11 + Z.of_nat (length (ARCommands.encodedBytes a))) by lia.
  rewrite <- !app_assoc. reflexivity.
Qed.

Section WithCommandMap.

Variable cmdArgs : Type.
Variable CommandMap : ARCommands.Command -> option (list Z -> Go.outcome cmdArgs).

(** The command header of a payload: project, class, the command id as a
    little-endian [uint16], and the argument bytes behind it. *)
Lemma frameDecode_layout (dt tb sq sz a0 a1 k : Z) (bytes : list Z) :
  0 <= k < 65536 ->
  sz = 11 + Z.of_nat (length bytes) ->
  Dispatcher.frameDecode cmdArgs CommandMap
    (protocolARNetworkAL.mk dt tb sq sz ([a0; a1] ++ Go.putUint16LE k ++ bytes))
  = match CommandMap (ARCommands.mkCommand a0 a1 k) with
    | Some Decode =>
        x ← Decode bytes;
        Go.Returned (Dispatcher.mkARCommands a0 a1 k (sz - 7), Some x, None)
    | None => Go.Returned (Dispatcher.mkARCommands a0 a1 k (sz - 7), None, None)
    end.
Proof.
  intros Hk Hsz. unfold Dispatcher.frameDecode.
  cbn [protocolARNetworkAL.dataARNetwork protocolARNetworkAL.size].
  set (payload := [a0; a1] ++ Go.putUint16LE k ++ bytes).
  assert (Z.of_nat (length payload) = 4 + Z.of_nat (length bytes)) as Hlen.
  { unfold payload. rewrite !length_app. simpl. lia. }
  unfold Framing.headerSize.
  rewrite !GoFacts.index_in_range by lia. step_bind.
  rewrite (GoFacts.slice_in_range payload 2 4) by lia. step_bind.
  change (take (Z.to_nat (4 - 2)) (drop (Z.to_nat 2) payload))
    with (take 2 (Go.putUint16LE k ++ bytes)).
  rewrite (take_app_length' (Go.putUint16LE k)) by reflexivity.
  rewrite Conv_putUint16LE by exact Hk.
  rewrite GoFacts.slice_in_range by lia. step_bind.
  replace (Z.to_nat (sz - 7 - 4)) with (length bytes) by lia.
  change (drop (Z.to_nat 4) payload) with bytes.
  rewrite firstn_all.
  change (nth (Z.to_nat 0) payload 0) with a0.
  change (nth (Z.to_nat 1) payload 0) with a1.
  destruct (CommandMap (ARCommands.mkCommand a0 a1 k)); reflexivity.
Qed.

(** X3.  What [encodeCmd] writes, [decode] and the command decoder read
    back.  For a descriptor whose fields fit their widths and arguments
    that leave the frame below 2^32 bytes, [decode] on the packet of
    [encodeCmd] returns, with [io.EOF], a frame of type 2 on buffer 10 with
    the number [encodeCmd] drew and a size equal to the length of the
    packet, and the command decoder finds in it the descriptor that went in
    and hands exactly the encoded argument bytes to the [Decode] of the
    registry. *)
Theorem encodeCmd_decodes_back (u : udpPacketCreator.t)
  (c : ARCommands.Command) (a : ARCommands.encodedArguments) :
  0 <= ARCommands.Project c < 256 ->
  0 <= ARCommands.Class c < 256 ->
  0 <= ARCommands.Cmd c < 65536 ->
  Z.of_nat (length (ARCommands.encodedBytes a)) + 11 < 2 ^ 32 ->
  let p := snd (udpPacketCreator.encodeCmd u c a) in
  exists frame : protocolARNetworkAL.t,
    Framing.decode p = Go.Returned (frame, Some Go.io_EOF, p)
    /\ protocolARNetworkAL.dataType frame = 2
    /\ protocolARNetworkAL.targetBufferID frame = 10
    /\ protocolARNetworkAL.sequenceNR frame = (udpPacketCreator.get u 10 + 1) mod 256
    /\ protocolARNetworkAL.size frame
       = Z.of_nat (length (networkUDPPacket.data p))
    /\ Dispatcher.frameDecode cmdArgs CommandMap frame
       = match CommandMap c with
         | Some Decode =>
             x ← Decode (ARCommands.encodedBytes a);
             Go.Returned
               (Dispatcher.mkARCommands (ARCommands.Project c)
                  (ARCommands.Class c) (ARCommands.Cmd c)
                  (4 + Z.of_nat (length (ARCommands.encodedBytes a))),
                Some x, None)
         | None =>
             Go.Returned
               (Dispatcher.mkARCommands (ARCommands.Project c)
                  (ARCommands.Class c) (ARCommands.Cmd c)
                  (4 + Z.of_nat (length (ARCommands.encodedBytes a))),
                None, None)
         end.
Proof.
  intros HP HC HK Hlen p.
  set (f := protocolARNetworkAL.mk 2 10 ((udpPacketCreator.get u 10 + 1) mod 256)
              (11 + Z.of_nat (length (ARCommands.encodedBytes a)))
              (ARCommands.convertCMDToBytes c ++ ARCommands.encodedBytes a)).
  assert (Wire.sized f) as Hf.
  { split; cbn [f protocolARNetworkAL.size protocolARNetworkAL.dataARNetwork].
    - rewrite length_app. change (length (ARCommands.convertCMDToBytes c)) with 4%nat. lia.
    - lia. }
  pose proof (encodeCmd_bytesOf u c a Hlen) as Hd. fold p f in Hd.
  assert (p = networkUDPPacket.mk 0 (Wire.bytesOf f) 0) as Hp
    by (rewrite <- Hd; reflexivity).
  exists f. split; [|repeat split].
  - pose proof (decode_bytesOf [] [] f 0 Hf) as Hdec.
    cbn [app length] in Hdec. rewrite app_nil_r in Hdec.
    change (Z.of_nat 0) with 0 in Hdec.
    destruct (decide (0 + protocolARNetworkAL.size f + 7 <= 0)) as [Hle|_].
    + exfalso. destruct Hf as [Hs _]. lia.
    + rewrite Hp. exact Hdec.
  - rewrite Hd. rewrite <- (length_bytesOf f Hf). reflexivity.
  - unfold f, ARCommands.convertCMDToBytes.
    rewrite <- !app_assoc.
    change ([Go.uint8 (ARCommands.Project c)] ++ [Go.uint8 (ARCommands.Class c)]
            ++ Go.putUint16LE (ARCommands.Cmd c mod 65536)
            ++ ARCommands.encodedBytes a)
      with ([Go.uint8 (ARCommands.Project c); Go.uint8 (ARCommands.Class c)]
            ++ Go.putUint16LE (ARCommands.Cmd c mod 65536)
            ++ ARCommands.encodedBytes a).
    rewrite frameDecode_layout by (try apply Z.mod_pos_bound; lia).
    rewrite !GoFacts.uint8_small by assumption.
    rewrite (Z.mod_small (ARCommands.Cmd c)) by exact HK.
    replace (11 + Z.of_nat (length (ARCommands.encodedBytes a)) - 7)
      with (4 + Z.of_nat (length (ARCommands.encodedBytes a))) by lia.
    destruct c as [P Cl K]. reflexivity.
Qed.

End WithCommandMap.

(** The theorem at a take-off encoded by a fresh creator, for a registry
    that knows no command. *)
Lemma encodeCmd_decodes_back_witness :
  exists frame : protocolARNetworkAL.t,
    Framing.decode
      (snd (udpPacketCreator.encodeCmd udpPacketCreator.newUdpPacketCreator
              ARCommands.PilotingTakeOff (ARCommands.mkEncoded [])))
    = Go.Returned
        (frame, Some Go.io_EOF,
         snd (udpPacketCreator.encodeCmd udpPacketCreator.newUdpPacketCreator
                ARCommands.PilotingTakeOff (ARCommands.mkEncoded [])))
    /\ protocolARNetworkAL.sequenceNR frame = 1
    /\ Dispatcher.frameDecode unit (fun _ => None) frame
       = Go.Returned (Dispatcher.mkARCommands 1 0 1 4, None, None).
Proof.
  destruct (encodeCmd_decodes_back unit (fun _ => None)
              udpPacketCreator.newUdpPacketCreator ARCommands.PilotingTakeOff
              (ARCommands.mkEncoded []))
    as (frame & Hd & _ & _ & Hs & _ & Hf);
    [simpl; lia|simpl; lia|simpl; lia|simpl; lia|].
  exists frame. split; [exact Hd|]. split; [exact Hs|exact Hf].
Defined.

End WireFacts.

(** ** Datagrams through the dispatcher *)

Module DatagramFacts.

Import Dispatcher.

(** X6.  A datagram of at most three bytes, the empty one included, makes
    [decode] panic: the size field is read from the zeroed rest of the
    receive buffer, and the payload slice [data[7:0]] is out of range. *)
Theorem short_datagram_panics (bytes : list Z) :
  (length bytes <= 3)%nat ->
  Framing.decode (Framing.received bytes) = Go.Panicked.
Proof.
  intros Hlen.
  destruct bytes as [|b0 [|b1 [|b2 [|b3 rest]]]];
    [| | | | simpl in Hlen; lia]; vm_compute; reflexivity.
Qed.

(** The theorem at the empty datagram. *)
Lemma short_datagram_panics_witness :
  Framing.decode (Framing.received []) = Go.Panicked.
Proof. apply short_datagram_panics. simpl. lia. Defined.

Section WithCommandMap.

Variable cmdArgs : Type.
Variable CommandMap : ARCommands.Command -> option (list Z -> Go.outcome cmdArgs).

(** The command decoder indexes the first four payload bytes unguarded. *)
Lemma frameDecode_short (f : protocolARNetworkAL.t) :
  (length (protocolARNetworkAL.dataARNetwork f) < 4)%nat ->
  frameDecode cmdArgs CommandMap f = Go.Panicked.
Proof.
  intros Hlen. unfold frameDecode.
  destruct (protocolARNetworkAL.dataARNetwork f) as [|a0 [|a1 [|a2 [|a3 rest]]]];
    [| | | | simpl in Hlen; lia]; reflexivity.
Qed.

(** X5.  A frame outside the ping buffers whose payload has fewer than
    four bytes makes the turn of the dispatcher panic in the command
    decoder; when its type is 4 the ack has been handed over before, and
    otherwise nothing has. *)
Theorem short_frame_panics_dispatcher
  (u : udpPacketCreator.t) (f : protocolARNetworkAL.t) (lastFrame : bool) :
  protocolARNetworkAL.targetBufferID f <> 0 ->
  protocolARNetworkAL.targetBufferID f <> 1 ->
  (length (protocolARNetworkAL.dataARNetwork f) < 4)%nat ->
  snd (handleFrame cmdArgs CommandMap u f lastFrame) = Go.Panicked
  /\ length (sent (handleFrame cmdArgs CommandMap u f lastFrame))
     = (if decide (protocolARNetworkAL.dataType f = 4) then 1%nat else 0%nat).
Proof.
  intros H0 H1 Hlen. unfold handleFrame, sent.
  destruct (decide _) as [[Hb|Hb]|_]; [contradiction|contradiction|].
  rewrite (frameDecode_short f Hlen).
  destruct (decide (protocolARNetworkAL.dataType f = 4)); split; reflexivity.
Qed.

(** The loop over a buffer that holds ping frames one behind the other
    from the cursor on, up to the end of the datagram. *)
Lemma handlePacket_pings (frames : list protocolARNetworkAL.t) :
  forall (u : udpPacketCreator.t) (pre post : list Z) (fuel : nat),
    frames <> [] ->
    Forall Wire.sized frames ->
    Forall (fun f => protocolARNetworkAL.targetBufferID f = 0
                     \/ protocolARNetworkAL.targetBufferID f = 1) frames ->
    (length frames <= fuel)%nat ->
    handlePacket cmdArgs CommandMap fuel u
      (networkUDPPacket.mk
         (Z.of_nat (length pre)
          + Z.of_nat (length (concat (map Wire.bytesOf frames))))
         (pre ++ concat (map Wire.bytesOf frames) ++ post)
         (Z.of_nat (length pre)))
      false
    = (fst (Wire.pongs u frames), snd (Wire.pongs u frames), Done).
Proof.
  induction frames as [|f rest IH]; intros u pre post fuel Hne Hsized Hping Hfuel;
    [contradiction|].
  apply Forall_cons in Hsized. destruct Hsized as [Hf Hrest].
  apply Forall_cons in Hping. destruct Hping as [Hpf Hprest].
  destruct fuel as [|fuel]; [simpl in Hfuel; lia|].
  cbn [handlePacket map concat].
  rewrite <- (app_assoc (Wire.bytesOf f)).
  rewrite (WireFacts.decode_bytesOf pre (concat (map Wire.bytesOf rest) ++ post)
             f _ Hf).
  pose proof (WireFacts.length_bytesOf f Hf) as Hlf.
  rewrite length_app, Nat2Z.inj_add, Hlf.
  cbn [Wire.pongs].
  destruct rest as [|f2 rest'].
  - cbn [map concat length].
    destruct (decide _) as [Hle|_]; [exfalso; simpl in Hle; lia|].
    rewrite DispatcherFacts.handleFrame_ping by exact Hpf.
    destruct (udpPacketCreator.encodePong u f) as [u1 p]. reflexivity.
  - assert (7 <= Z.of_nat (length (concat (map Wire.bytesOf (f2 :: rest'))))) as H7.
    { apply Forall_cons in Hrest. destruct Hrest as [[Hs2 _] _].
      cbn [map concat]. rewrite length_app, Nat2Z.inj_add.
      pose proof (WireFacts.length_bytesOf f2) as Hl2.
      unfold Wire.bytesOf in *. rewrite !length_app in *. simpl in *. lia. }
    destruct (decide _) as [_|Hgt]; [|exfalso; lia].
    rewrite DispatcherFacts.handleFrame_ping by exact Hpf.
    destruct (udpPacketCreator.encodePong u f) as [u1 p] eqn:Hp.
    specialize (IH u1 (pre ++ Wire.bytesOf f) post fuel ltac:(discriminate)
                  Hrest Hprest ltac:(simpl in Hfuel |- *; lia)).
    rewrite length_app, Nat2Z.inj_add, Hlf in IH.
    rewrite <- app_assoc in IH.
    replace (Z.of_nat (length pre)
             + (protocolARNetworkAL.size f
                + Z.of_nat (length (concat (map Wire.bytesOf (f2 :: rest'))))))
      with (Z.of_nat (length pre) + protocolARNetworkAL.size f
            + Z.of_nat (length (concat (map Wire.bytesOf (f2 :: rest'))))) by lia.
    cbn [fst snd]. rewrite IH.
    destruct (Wire.pongs u1 (f2 :: rest')) as [u2 ps]. reflexivity.
Qed.

(** X7.  A datagram of at most 16384 bytes made of ping frames, one behind
    the other, each with a size field that counts its header and payload,
    is answered frame by frame: the loop hands over the pong of every
    frame, in the order of the frames, and ends with the last frame without
    a panic. *)
Theorem ping_datagram_is_answered_in_order
  (u : udpPacketCreator.t) (frames : list protocolARNetworkAL.t) (fuel : nat) :
  frames <> [] ->
  Forall Wire.sized frames ->
  Forall (fun f => protocolARNetworkAL.targetBufferID f = 0
                   \/ protocolARNetworkAL.targetBufferID f = 1) frames ->
  Z.of_nat (length (concat (map Wire.bytesOf frames))) <= 16384 ->
  (length frames <= fuel)%nat ->
  handlePacket cmdArgs CommandMap fuel u
    (Framing.received (concat (map Wire.bytesOf frames))) false
  = (fst (Wire.pongs u frames), snd (Wire.pongs u frames), Done).
Proof.
  intros Hne Hsized Hping Hlen Hfuel. unfold Framing.received.
  rewrite take_ge by lia.
  exact (handlePacket_pings frames u [] _ fuel Hne Hsized Hping Hfuel).
Qed.

(** A turn hands over one packet at most. *)
Lemma handleFrame_at_most_one
  (u : udpPacketCreator.t) (f : protocolARNetworkAL.t) (lastFrame : bool) :
  (length (snd (fst (handleFrame cmdArgs CommandMap u f lastFrame))) <= 1)%nat.
Proof.
  unfold handleFrame.
  destruct (decide _) as [Hb|Hb].
  - destruct (udpPacketCreator.encodePong u f). simpl. lia.
  - destruct (decide _); [destruct (udpPacketCreator.encodeAck _ _ _)|];
      simpl; lia.
Qed.

(** A datagram is answered with at most one packet per seven bytes left
    behind the cursor. *)
Lemma handlePacket_reply_bound (fuel : nat) :
  forall (u : udpPacketCreator.t) (packet : networkUDPPacket.t) (lastFrame : bool),
    0 <= networkUDPPacket.framePos packet ->
    7 * Z.of_nat (length (sent (handlePacket cmdArgs CommandMap fuel u packet
                                  lastFrame)))
    <= Z.max (networkUDPPacket.size packet - networkUDPPacket.framePos packet) 7.
Proof.
  induction fuel as [|fuel IH]; intros u packet lastFrame Hp;
    [unfold sent; simpl; lia|].
  cbn [handlePacket].
  destruct (Framing.decode packet) as [[[frame err] packet']|] eqn:Hd;
    [|unfold sent; simpl; lia].
  set (lf := match err with Some Go.io_EOF => true | _ => lastFrame end).
  pose proof (DispatcherFacts.handleFrame_continue cmdArgs CommandMap u frame lf) as Hc.
  pose proof (handleFrame_at_most_one u frame lf) as H1.
  destruct (handleFrame cmdArgs CommandMap u frame lf) as [[u1 out] [[|]|]];
    cbn [fst snd] in *;
    try (unfold sent; cbn [fst snd]; rewrite length_map; lia).
  specialize (Hc eq_refl).
  destruct (DispatcherFacts.decode_returned _ _ _ _ Hp Hd)
    as [(He & Hs & Hadv & Hroom)|He].
  - specialize (IH u1 packet' lf ltac:(lia)).
    destruct (handlePacket cmdArgs CommandMap fuel u1 packet' lf) as [[u2 more] st].
    unfold sent in IH |- *. cbn [fst snd] in IH |- *.
    rewrite length_map in IH. rewrite length_map, length_app. lia.
  - subst err. unfold lf in Hc. discriminate Hc.
Qed.

(** X2.  Every frame is answered with one packet at most, and a datagram
    with at most one packet per seven bytes left behind the cursor, hence
    with one packet at most when fewer than fourteen bytes are left,
    however the loop ends. *)
Theorem replies_are_bounded_by_datagram_length :
  (forall (u : udpPacketCreator.t) (f : protocolARNetworkAL.t) (lastFrame : bool),
     (length (sent (handleFrame cmdArgs CommandMap u f lastFrame)) <= 1)%nat)
  /\ (forall (fuel : nat) (u : udpPacketCreator.t) (packet : networkUDPPacket.t)
         (lastFrame : bool),
        0 <= networkUDPPacket.framePos packet ->
        7 * Z.of_nat (length (sent (handlePacket cmdArgs CommandMap fuel u packet
                                      lastFrame)))
        <= Z.max (networkUDPPacket.size packet
                  - networkUDPPacket.framePos packet) 7).
Proof.
  split.
  - intros u f lastFrame. unfold sent. rewrite length_map.
    apply handleFrame_at_most_one.
  - intros fuel. apply handlePacket_reply_bound.
Qed.

(** X4.  The ack the dispatcher hands over for a frame of type 4 outside
    the ping buffers is a well-formed frame of eight bytes: [decode] reads
    it back, with [io.EOF], as a frame of type 1 on the buffer plus 128
    modulo 256 with size 8, whose payload is the one byte of the sequence
    number received. *)
Theorem ack_decodes_to_received_number
  (u : udpPacketCreator.t) (f : protocolARNetworkAL.t) (lastFrame : bool) :
  protocolARNetworkAL.dataType f = 4 ->
  protocolARNetworkAL.targetBufferID f <> 0 ->
  protocolARNetworkAL.targetBufferID f <> 1 ->
  exists d : list Z,
    sent (handleFrame cmdArgs CommandMap u f lastFrame) = [d]
    /\ Z.of_nat (length d) = 8
    /\ Framing.decode (udpPacketCreator.packetOf d)
       = Go.Returned
           (protocolARNetworkAL.mk 1
              (Go.uint8 (protocolARNetworkAL.targetBufferID f + 128))
              (Go.uint8 (protocolARNetworkAL.sequenceNR f)) 8
              [Go.uint8 (protocolARNetworkAL.sequenceNR f)],
            Some Go.io_EOF, udpPacketCreator.packetOf d).
Proof.
  intros Ht H0 H1. eexists. split; [|split].
  - apply DispatcherFacts.handleFrame_ack; assumption.
  - reflexivity.
  - reflexivity.
Qed.

(** Every frame [decode] returns has a size field that counts its header
    and its payload. *)
Lemma decode_frame_sized
  (packet packet' : networkUDPPacket.t) (frame : protocolARNetworkAL.t)
  (err : option Go.error) :
  0 <= networkUDPPacket.framePos packet ->
  Framing.decode packet = Go.Returned (frame, err, packet') ->
  protocolARNetworkAL.size frame
  = 7 + Z.of_nat (length (protocolARNetworkAL.dataARNetwork frame)).
Proof.
  intros Hp Hd. unfold Framing.decode in Hd.
  destruct (Go.index _ (_ + 0)) as [dt|]; [|discriminate Hd].
  destruct (Go.index _ (_ + 1)) as [tb|]; [|discriminate Hd].
  destruct (Go.index _ (_ + 2)) as [sq|]; [|discriminate Hd].
  destruct (Go.slice _ (_ + 3) _) as [sz|]; [|discriminate Hd].
  cbn [mbind Go.outcome_bind] in Hd.
  destruct (Go.slice _ (_ + 7) _) as [payload|] eqn:Hs; [|discriminate Hd].
  pose proof (GoFacts.slice_returned _ _ _ _ Hs) as (H1 & H2 & H3).
  rewrite GoFacts.slice_in_range in Hs by lia. injection Hs as Hs.
  cbn [mbind Go.outcome_bind] in Hd.
  destruct (decide _); injection Hd as Hf _ _; subst frame payload;
    cbn [protocolARNetworkAL.size protocolARNetworkAL.dataARNetwork];
    rewrite length_take, length_drop; lia.
Qed.

(** X19.  A frame that [decode] returned, outside the ping buffers, with at
    least four payload bytes and a descriptor the registry does not know,
    is no error: the command decoder returns without panic and the loop
    goes on to the next frame, or ends when this was the last one. *)
Theorem unknown_command_is_skipped
  (u : udpPacketCreator.t) (packet packet' : networkUDPPacket.t)
  (f : protocolARNetworkAL.t) (err : option Go.error) (lastFrame : bool)
  (a0 a1 b2 b3 : Z) (bytes : list Z) :
  0 <= networkUDPPacket.framePos packet ->
  Framing.decode packet = Go.Returned (f, err, packet') ->
  protocolARNetworkAL.targetBufferID f <> 0 ->
  protocolARNetworkAL.targetBufferID f <> 1 ->
  protocolARNetworkAL.dataARNetwork f = a0 :: a1 :: b2 :: b3 :: bytes ->
  CommandMap (ARCommands.mkCommand a0 a1 (b2 + 256 * b3)) = None ->
  snd (handleFrame cmdArgs CommandMap u f lastFrame)
  = Go.Returned (if lastFrame then Break else Continue).
Proof.
  intros Hp Hd H0 H1 Hpl Hc.
  pose proof (decode_frame_sized _ _ _ _ Hp Hd) as Hsz.
  assert (frameDecode cmdArgs CommandMap f
          = Go.Returned
              (mkARCommands a0 a1 (b2 + 256 * b3) (protocolARNetworkAL.size f - 7),
               None, None)) as Hfd.
  { unfold frameDecode. rewrite Hpl in *. unfold Framing.headerSize.
    rewrite !GoFacts.index_in_range by (simpl; lia).
    cbn [mbind Go.outcome_bind].
    rewrite (GoFacts.slice_in_range _ 2 4) by (simpl; lia).
    cbn [mbind Go.outcome_bind].
    rewrite GoFacts.slice_in_range by (simpl in *; lia).
    cbn [mbind Go.outcome_bind].
    change (Framing.ConvLittleEndianSliceToNumeric
              (take (Z.to_nat (4 - 2)) (drop (Z.to_nat 2) (a0 :: a1 :: b2 :: b3 :: bytes))))
      with (b2 + 256 * (b3 + 256 * 0)).
    replace (b2 + 256 * (b3 + 256 * 0)) with (b2 + 256 * b3) by lia.
    change (nth (Z.to_nat 0) (a0 :: a1 :: b2 :: b3 :: bytes) 0) with a0.
    change (nth (Z.to_nat 1) (a0 :: a1 :: b2 :: b3 :: bytes) 0) with a1.
    rewrite Hc. reflexivity. }
  unfold handleFrame.
  destruct (decide _) as [[Hb|Hb]|_]; [contradiction|contradiction|].
  rewrite Hfd.
  destruct (decide (protocolARNetworkAL.dataType f = 4));
    [destruct (udpPacketCreator.encodeAck _ _ _)|]; reflexivity.
Qed.

End WithCommandMap.

(** X1 at the datagram [02 00 7b 08000000 aa]. *)
Lemma handlePacket_terminates_witness :
  snd (handlePacket unit (fun _ => None) 9 udpPacketCreator.newUdpPacketCreator
         (Framing.received [2; 0; 123; 8; 0; 0; 0; 170]) false)
  <> OutOfFuel.
Proof.
  apply DispatcherFacts.handlePacket_terminates.
  - simpl. lia.
  - simpl. lia.
Defined.

(** X2 at the datagram [02 00 7b 08000000 aa]. *)
Lemma replies_are_bounded_by_datagram_length_witness :
  7 * Z.of_nat
        (length (sent (handlePacket unit (fun _ => None) 9
                         udpPacketCreator.newUdpPacketCreator
                         (Framing.received [2; 0; 123; 8; 0; 0; 0; 170]) false)))
  <= 8.
Proof.
  destruct (replies_are_bounded_by_datagram_length unit (fun _ => None))
    as [_ Hbound].
  exact (Hbound 9%nat udpPacketCreator.newUdpPacketCreator
           (Framing.received [2; 0; 123; 8; 0; 0; 0; 170]) false
           ltac:(simpl; lia)).
Defined.

(** X4 at the frame [04 0b 42 0b000000 12345678]. *)
Lemma ack_decodes_to_received_number_witness :
  exists d : list Z,
    sent (handleFrame unit (fun _ => None) udpPacketCreator.newUdpPacketCreator
            (protocolARNetworkAL.mk 4 11 66 11 [18; 52; 86; 120]) true)
    = [d]
    /\ Framing.decode (udpPacketCreator.packetOf d)
       = Go.Returned
           (protocolARNetworkAL.mk 1 139 66 8 [66], Some Go.io_EOF,
            udpPacketCreator.packetOf d).
Proof.
  destruct (ack_decodes_to_received_number unit (fun _ => None)
              udpPacketCreator.newUdpPacketCreator
              (protocolARNetworkAL.mk 4 11 66 11 [18; 52; 86; 120]) true)
    as (d & Hs & _ & Hd); [reflexivity|simpl; lia|simpl; lia|].
  exists d. split; [exact Hs|exact Hd].
Defined.

(** X5 at an ack frame [01 8b 01 08000000 42] coming in: its payload of one
    byte cannot be decoded as a command. *)
Lemma short_frame_panics_dispatcher_witness :
  snd (handleFrame unit (fun _ => None) udpPacketCreator.newUdpPacketCreator
         (protocolARNetworkAL.mk 1 139 1 8 [66]) true)
  = Go.Panicked.
Proof.
  destruct (short_frame_panics_dispatcher unit (fun _ => None)
              udpPacketCreator.newUdpPacketCreator
              (protocolARNetworkAL.mk 1 139 1 8 [66]) true)
    as [Hp _]; [simpl; lia|simpl; lia|simpl; lia|].
  exact Hp.
Defined.

(** X7 at a datagram of two pings, on the buffers 0 and 1. *)
Lemma ping_datagram_is_answered_in_order_witness :
  sent (handlePacket unit (fun _ => None) 2 udpPacketCreator.newUdpPacketCreator
          (Framing.received
             (concat (map Wire.bytesOf
                        [protocolARNetworkAL.mk 2 0 123 8 [170];
                         protocolARNetworkAL.mk 2 1 7 8 [187]])))
          false)
  = [[2; 0; 1; 8; 0; 0; 0; 170]; [2; 1; 1; 8; 0; 0; 0; 187]].
Proof.
  rewrite (ping_datagram_is_answered_in_order unit (fun _ => None)
             udpPacketCreator.newUdpPacketCreator
             [protocolARNetworkAL.mk 2 0 123 8 [170];
              protocolARNetworkAL.mk 2 1 7 8 [187]] 2).
  - reflexivity.
  - discriminate.
  - repeat constructor.
  - repeat constructor; simpl; lia.
  - simpl. lia.
  - simpl. lia.
Defined.

(** X19 at the datagram [02 7f 08 0b000000 01 04 0600] of eleven bytes. *)
Lemma unknown_command_is_skipped_witness :
  snd (handleFrame unit (fun _ => None) udpPacketCreator.newUdpPacketCreator
         (protocolARNetworkAL.mk 2 127 8 11 [1; 4; 6; 0]) true)
  = Go.Returned Break.
Proof.
  apply (unknown_command_is_skipped unit (fun _ => None)
           udpPacketCreator.newUdpPacketCreator
           (networkUDPPacket.mk 11 [2; 127; 8; 11; 0; 0; 0; 1; 4; 6; 0] 0)
           (networkUDPPacket.mk 11 [2; 127; 8; 11; 0; 0; 0; 1; 4; 6; 0] 0)
           (protocolARNetworkAL.mk 2 127 8 11 [1; 4; 6; 0])
           (Some Go.io_EOF) true 1 4 6 0 []).
  - simpl. lia.
  - reflexivity.
  - simpl. lia.
  - simpl. lia.
  - reflexivity.
  - reflexivity.
Defined.

End DatagramFacts.

(** ** Runs of the PCMD scheduler *)

Module SchedulerRunsFacts.

Import Scheduler.

(** The buffer stays within the capacity, which never changes. *)
Lemma send_bounded {A : Type} (ch : chan A) (v : A) :
  bounded ch -> bounded (send ch v) /\ cap (send ch v) = cap ch.
Proof.
  unfold bounded, send. intros Hb.
  destruct (decide _) as [Hroom|Hfull]; cbn [buf cap]; split;
    try reflexivity; try rewrite length_app; simpl; lia.
Qed.

Lemma tryRecv_bounded {A : Type} (ch ch' : chan A) (v : A) :
  bounded ch -> tryRecv ch = Some (v, ch') ->
  bounded ch' /\ cap ch' = cap ch.
Proof.
  unfold bounded, tryRecv. intros Hb Hr.
  destruct (buf ch) as [|w rest] eqn:Hbuf.
  - destruct (sendq ch) as [|w waiting]; [discriminate Hr|].
    injection Hr as _ Hch. subst ch'. cbn [buf cap]. split; [simpl; lia|reflexivity].
  - injection Hr as _ Hch. subst ch'. cbn [buf cap]. split; [|reflexivity].
    rewrite length_app, length_take. simpl in Hb. lia.
Qed.

Lemma tick_bounded (s : state) :
  bounded (chPcmdPacketScheduler s) ->
  bounded (chPcmdPacketScheduler (tick s))
  /\ cap (chPcmdPacketScheduler (tick s)) = cap (chPcmdPacketScheduler s).
Proof.
  intros Hb. unfold tick.
  destruct (tryRecv (chPcmdPacketScheduler s)) as [[p ch]|] eqn:Hr.
  - cbn [chPcmdPacketScheduler]. exact (tryRecv_bounded _ _ _ Hb Hr).
  - split; [exact Hb|reflexivity].
Qed.

Lemma run_bounded (es : list event) :
  forall s : state,
    ordered (chPcmdPacketScheduler s) ->
    bounded (chPcmdPacketScheduler s) ->
    ordered (chPcmdPacketScheduler (run s es))
    /\ bounded (chPcmdPacketScheduler (run s es))
    /\ cap (chPcmdPacketScheduler (run s es)) = cap (chPcmdPacketScheduler s).
Proof.
  induction es as [|e es IH]; intros s Ho Hb; [repeat split; assumption|].
  change (run s (e :: es)) with (run (step s e) es). destruct e as [p|].
  - destruct (SchedulerFacts.send_ordered (chPcmdPacketScheduler s) p Ho) as [Ho' _].
    destruct (send_bounded (chPcmdPacketScheduler s) p Hb) as [Hb' Hc].
    destruct (IH (step s (Produce p)) Ho' Hb') as (H1 & H2 & H3).
    repeat split; [exact H1|exact H2|]. rewrite H3. exact Hc.
  - destruct (SchedulerFacts.tick_forwards_oldest s Ho) as [Ho' _].
    destruct (tick_bounded s Hb) as [Hb' Hc].
    destruct (IH (step s Tick) Ho' Hb') as (H1 & H2 & H3).
    repeat split; [exact H1|exact H2|]. rewrite H3. exact Hc.
Qed.

(** Firings of the timer in a row take the pending packets from the front. *)
Lemma ticks_drain (k : nat) :
  forall s : state,
    ordered (chPcmdPacketScheduler s) ->
    forwarded (run s (repeat Tick k))
    = forwarded s ++ take k (pending (chPcmdPacketScheduler s))
    /\ pending (chPcmdPacketScheduler (run s (repeat Tick k)))
       = drop k (pending (chPcmdPacketScheduler s)).
Proof.
  induction k as [|k IH]; intros s Ho.
  - cbn [repeat run fold_left take drop]. rewrite app_nil_r. split; reflexivity.
  - cbn [repeat]. change (run s (Tick :: repeat Tick k)) with (run (tick s) (repeat Tick k)).
    pose proof (SchedulerFacts.tryRecv_ordered _ Ho) as Hr.
    destruct (SchedulerFacts.tick_forwards_oldest s Ho) as [Ho' _].
    destruct (IH (tick s) Ho') as [Hf Hp]. rewrite Hf, Hp.
    unfold tick in *.
    destruct (tryRecv (chPcmdPacketScheduler s)) as [[p ch]|].
    + destruct Hr as [_ Hpend]. cbn [forwarded chPcmdPacketScheduler].
      rewrite Hpend. cbn [take drop]. rewrite <- app_assoc. split; reflexivity.
    + rewrite Hr. rewrite !take_nil, !drop_nil. split; reflexivity.
Qed.

(** X9.  Whatever happened before, [k] firings of the timer with no packet
    produced in between forward the [k] oldest pending packets, in the
    order they were produced, and leave the others pending; when fewer are
    pending, all of them are forwarded and the further firings forward
    nothing. *)
Theorem ticks_forward_the_oldest_pending (es : list event) (k : nat) :
  forwarded (run (run NewDrone es) (repeat Tick k))
  = forwarded (run NewDrone es)
    ++ take k (pending (chPcmdPacketScheduler (run NewDrone es)))
  /\ pending (chPcmdPacketScheduler (run (run NewDrone es) (repeat Tick k)))
     = drop k (pending (chPcmdPacketScheduler (run NewDrone es))).
Proof.
  destruct (run_bounded es NewDrone (SchedulerFacts.ordered_make 100))
    as (Ho & _ & _); [unfold bounded; simpl; lia|].
  exact (ticks_drain k _ Ho).
Qed.

(** X10.  At any time the buffer of the scheduler's channel holds the 100
    oldest pending packets and the blocked senders hold the packets beyond
    them, in order: the input router blocks on a PCMD packet exactly when
    100 packets are pending already. *)
Theorem producer_blocks_beyond_hundred_pending (es : list event) :
  let ch := chPcmdPacketScheduler (run NewDrone es) in
  buf ch = take 100 (pending ch)
  /\ sendq ch = drop 100 (pending ch)
  /\ (length (buf ch) <= 100)%nat.
Proof.
  intros ch.
  destruct (run_bounded es NewDrone (SchedulerFacts.ordered_make 100))
    as (Ho & Hb & Hc); [unfold bounded; simpl; lia|].
  fold ch in Ho, Hb, Hc. change (cap (chPcmdPacketScheduler NewDrone)) with 100%nat in Hc.
  unfold ordered, bounded, pending in *. rewrite Hc in *.
  destruct Ho as [Hq|Hfull].
  - rewrite Hq, app_nil_r. split; [|split].
    + rewrite take_ge by lia. reflexivity.
    + rewrite drop_ge by lia. reflexivity.
    + exact Hb.
  - assert (length (buf ch) = 100%nat) as Hl by lia. split; [|split].
    + rewrite take_app_length' by (symmetry; exact Hl). reflexivity.
    + rewrite drop_app_length' by (symmetry; exact Hl). reflexivity.
    + exact Hb.
Qed.

End SchedulerRunsFacts.

(** ** Discovery with retries *)

Module SessionFacts.

Import Discovery Session.

Lemma Discover_fails (d : Drone) (a : answers) :
  fails a -> exists err : Go.error, Discover d a = Returns (d, Some err).
Proof.
  unfold fails, Discover. intros [[err Hd]|[Hd [err Hr]]].
  - exists err. rewrite Hd. reflexivity.
  - exists err. rewrite Hd, Hr. reflexivity.
Qed.

Lemma Discover_succeeds (d : Drone) (a : answers) :
  succeeds a ->
  Discover d a = Returns (withPortC2D d (Itoa (C2dPort (unmarshalled a))), None).
Proof.
  unfold succeeds, Discover. intros (Hd & Hr & Hs). rewrite Hd, Hr.
  destruct (decide _) as [Hn|_]; [contradiction|reflexivity].
Qed.

(** Calls that return an error use up one turn each. *)
Lemma discoverLoop_failures (net : nat -> answers) (k : nat) :
  forall (turns i : nat) (d : Drone),
    (forall j : nat, (i <= j < i + k)%nat -> fails (net j)) ->
    discoverLoop net (k + turns) i d = discoverLoop net turns (i + k) d.
Proof.
  induction k as [|k IH]; intros turns i d Hf.
  - rewrite Nat.add_0_r. reflexivity.
  - cbn [Nat.add discoverLoop].
    destruct (Discover_fails d (net i) (Hf i ltac:(lia))) as [err He].
    rewrite He. rewrite IH by (intros j Hj; apply Hf; lia).
    f_equal. lia.
Qed.

(** X11.  When every one of twenty calls of [Discover] returns an error,
    the loop of [start] ends after exactly twenty calls and hands the drone
    on as it was, the C2D port still unset: nothing is returned or raised
    for the failed discovery. *)
Theorem discovery_gives_up_after_twenty_failures
  (net : nat -> answers) (d : Drone) :
  (forall j : nat, (j < 20)%nat -> fails (net j)) ->
  discover net d = Returns (d, 20%nat).
Proof.
  intros Hf. unfold discover.
  change 20%nat with (20 + 0)%nat at 1.
  rewrite discoverLoop_failures by (intros j Hj; apply Hf; lia).
  reflexivity.
Qed.

(** X12.  The first call of [Discover], among the twenty, that neither
    fails to connect nor fails to read decides: with the status 0 the loop
    ends right after this call, the C2D port taken from its [c2d_port], and
    no further call is made; with another status the process exits. *)
Theorem discovery_ends_at_first_answer
  (net : nat -> answers) (d : Drone) (k : nat) :
  (k < 20)%nat ->
  (forall j : nat, (j < k)%nat -> fails (net j)) ->
  dialErr (net k) = None ->
  readErr (net k) = None ->
  (Status (unmarshalled (net k)) = 0 ->
   discover net d
   = Returns (withPortC2D d (Itoa (C2dPort (unmarshalled (net k)))), S k))
  /\ (Status (unmarshalled (net k)) <> 0 -> discover net d = ProcessExits 1).
Proof.
  intros Hk Hf Hd Hr. unfold discover.
  replace 20%nat with (k + S (19 - k))%nat by lia.
  rewrite discoverLoop_failures by (intros j Hj; apply Hf; lia).
  cbn [Nat.add discoverLoop]. split; intros Hs.
  - rewrite Discover_succeeds by (repeat split; assumption). reflexivity.
  - unfold Discover. rewrite Hd, Hr.
    destruct (decide _) as [_|Hn]; [reflexivity|contradiction].
Qed.

(** X11 for a drone that never accepts the connection. *)
Lemma discovery_gives_up_after_twenty_failures_witness :
  discover (fun _ => mkAnswers (Some (Go.net_OpError 111)) None None
                       (mkDiscoverData 0 0 0 0 0 0 0) None)
    NewDrone
  = Returns (NewDrone, 20%nat).
Proof.
  apply discovery_gives_up_after_twenty_failures.
  intros j _. left. eexists. reflexivity.
Defined.

(** X12 for a drone that accepts the third connection and answers with
    the port 54321. *)
Lemma discovery_ends_at_first_answer_witness :
  discover (fun i => if decide (i < 2)%nat
                     then mkAnswers (Some (Go.net_OpError 111)) None None
                            (mkDiscoverData 0 0 0 0 0 0 0) None
                     else parsedResponse 0 54321)
    NewDrone
  = Returns (withPortC2D NewDrone "54321"%string, 3%nat).
Proof.
  destruct (discovery_ends_at_first_answer
              (fun i => if decide (i < 2)%nat
                        then mkAnswers (Some (Go.net_OpError 111)) None None
                               (mkDiscoverData 0 0 0 0 0 0 0) None
                        else parsedResponse 0 54321)
              NewDrone 2) as [Hok _].
  - lia.
  - intros j Hj. destruct (decide (j < 2)%nat); [|lia]. left. eexists. reflexivity.
  - reflexivity.
  - reflexivity.
  - rewrite Hok; reflexivity.
Defined.

End SessionFacts.

(** ** The GPS registers *)

Module GPSFacts.

Import GPS.

Lemma StartReadingPosition_snoc (g : t) (vs : list MoveTo.gpsLatLonAlt)
  (v : MoveTo.gpsLatLonAlt) :
  StartReadingPosition g (vs ++ [v]) = readPosition (StartReadingPosition g vs) v.
Proof. unfold StartReadingPosition. rewrite fold_left_app. reflexivity. Qed.

(** X13.  After any positions were read, the registers hold the last
    position received (their old values when none was), the moveTo
    registers and [doingMoveTo] are as before, and [connected] is set
    exactly when it was set before and no position carried the sentinel
    500 in a field: reading positions can switch [connected] off and never
    on. *)
Theorem positions_never_connect (g : t) (vs : list MoveTo.gpsLatLonAlt) :
  let g' := StartReadingPosition g vs in
  connected g'
  = connected g
    && forallb (fun v => negb (PrimFloat.eqb (MoveTo.latitude v) 500
                               || PrimFloat.eqb (MoveTo.longitude v) 500
                               || PrimFloat.eqb (MoveTo.altitude v) 500)) vs
  /\ (latitudeMoveTo g', longitudeMoveTo g', altitudeMoveto g', doingMoveTo g')
     = (latitudeMoveTo g, longitudeMoveTo g, altitudeMoveto g, doingMoveTo g)
  /\ (latitude g', longitude g', altitude g')
     = match last vs with
       | Some v => (MoveTo.latitude v, MoveTo.longitude v, MoveTo.altitude v)
       | None => (latitude g, longitude g, altitude g)
       end.
Proof.
  induction vs as [|v vs IH] using rev_ind.
  - cbn. rewrite andb_true_r. repeat split.
  - cbv zeta in IH |- *. destruct IH as (Hc & Hm & _).
    rewrite StartReadingPosition_snoc, last_snoc, forallb_app.
    unfold readPosition at 1 2 3 4 5 6 7 8.
    cbn [connected latitude longitude altitude latitudeMoveTo longitudeMoveTo
         altitudeMoveto doingMoveTo forallb].
    split; [|split; [exact Hm|reflexivity]].
    rewrite Hc, andb_true_r.
    destruct (PrimFloat.eqb (MoveTo.latitude v) 500 || PrimFloat.eqb (MoveTo.longitude v) 500
              || PrimFloat.eqb (MoveTo.altitude v) 500);
      cbn [negb]; [rewrite !andb_false_r|rewrite andb_true_r]; reflexivity.
Qed.

End GPSFacts.

(** ** Runs of the waypoint buffer *)

Module MoveToRunsFacts.

Import MoveTo MoveToRuns.

(** [pullWayPointNext] on an empty and on a non-empty buffer. *)
Lemma pull_empty (s : moveToBuffer) :
  wellFormed (waypoints s) -> elems (waypoints s) = [] ->
  pullWayPointNext s = (gpsZero, Some Go.io_EOF, s).
Proof.
  intros Hw He. unfold pullWayPointNext.
  destruct (decide (len (waypoints s) = 0%nat)) as [_|Hn]; [reflexivity|].
  exfalso. pose proof (MoveToFacts.length_elems _ Hw) as Hl.
  rewrite He in Hl. simpl in Hl. lia.
Qed.

Lemma pull_first (s : moveToBuffer) (v : gpsLatLonAlt) (rest : list gpsLatLonAlt) :
  wellFormed (waypoints s) -> elems (waypoints s) = v :: rest ->
  pullWayPointNext s = (v, None, mkBuffer (dropFirst (waypoints s)))
  /\ elems (dropFirst (waypoints s)) = rest
  /\ wellFormed (dropFirst (waypoints s)).
Proof.
  intros Hw He.
  assert (len (waypoints s) <> 0%nat) as Hn.
  { intros H0. unfold elems in He. rewrite H0 in He. discriminate He. }
  split; [|split].
  - unfold pullWayPointNext.
    destruct (decide (len (waypoints s) = 0%nat)) as [H0|_]; [contradiction|].
    f_equal. f_equal.
    assert (elems (waypoints s) !! 0%nat = Some v) as Hv by (rewrite He; reflexivity).
    unfold elems in Hv. rewrite lookup_take_lt in Hv by lia.
    rewrite Hv. reflexivity.
  - rewrite MoveToFacts.elems_dropFirst by assumption. rewrite He. reflexivity.
  - apply MoveToFacts.wellFormed_dropFirst. exact Hw.
Qed.

(** X14.  [n] calls of [pullWayPointNext] in a row hand out the [n] oldest
    waypoints of the buffer, oldest first, and leave the others in their
    order; when the buffer holds fewer, all of them come out, the further
    calls return the error and hand out nothing, and the buffer is left
    empty. *)
Theorem waypoints_come_out_in_order (n : nat) :
  forall s : moveToBuffer,
    wellFormed (waypoints s) ->
    fst (pullWayPoints n s) = take n (elems (waypoints s))
    /\ elems (waypoints (snd (pullWayPoints n s))) = drop n (elems (waypoints s))
    /\ wellFormed (waypoints (snd (pullWayPoints n s))).
Proof.
  induction n as [|n IH]; intros s Hw; [repeat split; exact Hw|].
  cbn [pullWayPoints].
  destruct (elems (waypoints s)) as [|v rest] eqn:He.
  - rewrite (pull_empty s Hw He).
    destruct (IH s Hw) as (H1 & H2 & H3). rewrite He in H1, H2.
    rewrite H1, H2, take_nil, drop_nil. repeat split. exact H3.
  - destruct (pull_first s v rest Hw He) as (Hp & Hr & Hw').
    rewrite Hp.
    destruct (IH (mkBuffer (dropFirst (waypoints s))) Hw') as (H1 & H2 & H3).
    cbn [waypoints] in H1, H2. rewrite Hr in H1, H2.
    destruct (pullWayPoints n (mkBuffer (dropFirst (waypoints s)))) as [wps s'].
    cbn [fst snd] in *. rewrite H1, H2. repeat split. exact H3.
Qed.

Lemma startWayPointReceiver_inRange (spare : nat -> nat) (s : moveToBuffer)
  (wp : gpsLatLonAlt) :
  startWayPointReceiver spare s wp
  = if inRange wp then pushWayPointNew spare s wp else s.
Proof.
  unfold startWayPointReceiver, inRange.
  destruct (PrimFloat.ltb 91 (latitude wp));
    destruct (PrimFloat.ltb (latitude wp) (-91));
    destruct (PrimFloat.ltb 181 (longitude wp));
    destruct (PrimFloat.ltb (longitude wp) (-181)); reflexivity.
Qed.

(** X15.  A route received waypoint by waypoint ends up in the buffer
    without the waypoints out of range, the others behind the waypoints
    already buffered and in the order they were received. *)
Theorem ingest_keeps_waypoints_in_range (spare : nat -> nat)
  (wps : list gpsLatLonAlt) :
  forall s : moveToBuffer,
    wellFormed (waypoints s) ->
    elems (waypoints (receiveAll spare s wps))
    = elems (waypoints s) ++ List.filter inRange wps
    /\ wellFormed (waypoints (receiveAll spare s wps)).
Proof.
  induction wps as [|wp wps IH]; intros s Hw.
  - cbn. rewrite app_nil_r. split; [reflexivity|exact Hw].
  - change (receiveAll spare s (wp :: wps))
      with (receiveAll spare (startWayPointReceiver spare s wp) wps).
    rewrite startWayPointReceiver_inRange. cbn [List.filter].
    destruct (inRange wp).
    + assert (wellFormed (waypoints (pushWayPointNew spare s wp))) as Hw'
        by (apply MoveToFacts.wellFormed_append1; exact Hw).
      destruct (IH _ Hw') as [He Hwf]. split; [|exact Hwf].
      rewrite He. unfold pushWayPointNew. cbn [waypoints].
      rewrite MoveToFacts.elems_append1 by exact Hw.
      rewrite <- app_assoc. reflexivity.
    + exact (IH s Hw).
Qed.

(** X14 on the buffer that was given two waypoints and is asked for
    three. *)
Lemma waypoints_come_out_in_order_witness :
  fst (pullWayPoints 3 twoWaypoints) = [mkGps 59 10 30; mkGps 60 11 40]
  /\ elems (waypoints (snd (pullWayPoints 3 twoWaypoints))) = [].
Proof.
  assert (wellFormed (waypoints twoWaypoints)) as Hw
    by (unfold wellFormed; simpl; lia).
  destruct (waypoints_come_out_in_order 3 twoWaypoints Hw) as (H1 & H2 & _).
  rewrite H1, H2. split; reflexivity.
Defined.

(** X15 on a route of three waypoints whose second has the sentinel 500
    as latitude. *)
Lemma ingest_keeps_waypoints_in_range_witness :
  elems (waypoints (receiveAll doubling newMoveToHandler
                      [mkGps 59 10 30; mkGps 500 10 30; mkGps 60 11 40]))
  = [mkGps 59 10 30; mkGps 60 11 40].
Proof.
  destruct (ingest_keeps_waypoints_in_range doubling
              [mkGps 59 10 30; mkGps 500 10 30; mkGps 60 11 40]
              newMoveToHandler MoveToFacts.wellFormed_nil) as [He _].
  rewrite He. reflexivity.
Defined.

End MoveToRunsFacts.

(** ** Runs of the input router *)

Module InputRunsFacts.

Import Input InputRuns.

(** [CheckLimitPcmdField] is the clamp to the interval from -100 to 100. *)
Lemma CheckLimitPcmdField_clamps (number : Z) :
  CheckLimitPcmdField number = Z.max (-100) (Z.min number 100).
Proof.
  unfold CheckLimitPcmdField.
  destruct (decide (number > 100)); [lia|].
  destruct (decide (number < -100)); lia.
Qed.

Lemma int8_range (z : Z) : -128 <= Go.int8 z <= 127.
Proof. unfold Go.int8. pose proof (Z.mod_pos_bound (z + 128) 256). lia. Qed.

Lemma int8_small (z : Z) : -128 <= z <= 127 -> Go.int8 z = z.
Proof. intros Hz. unfold Go.int8. rewrite Z.mod_small by lia. lia. Qed.

Section WithCommands.

Variable PilotingLanding : ARCommands.Command.
Variable PilotingPCMD : ARCommands.Command.
Variable Ardrone3PilotingLandingArguments : ARCommands.encodedArguments.

#[local] Abbreviation handle :=
  (handleInputAction PilotingLanding PilotingPCMD Ardrone3PilotingLandingArguments).
#[local] Abbreviation handleAll :=
  (handleInputActions PilotingLanding PilotingPCMD Ardrone3PilotingLandingArguments).

(** What one action leaves of the piloting state and of the creator. *)
Lemma handleInputAction_step
  (pcmd : ARCommands.Ardrone3PilotingPCMDArguments)
  (u : udpPacketCreator.t) (action : inputAction) :
  let r := handle pcmd u action in
  (-100 <= ARCommands.Gaz pcmd <= 100 ->
   -100 <= ARCommands.Gaz (fst (fst r)) <= 100)
  /\ (ARCommands.Flag (fst (fst r)), ARCommands.Roll (fst (fst r)),
      ARCommands.Pitch (fst (fst r)), ARCommands.Yaw (fst (fst r)),
      ARCommands.TimestampAndSeqNum (fst (fst r)))
     = (ARCommands.Flag pcmd, ARCommands.Roll pcmd, ARCommands.Pitch pcmd,
        ARCommands.Yaw pcmd, ARCommands.TimestampAndSeqNum pcmd)
  /\ length (snd r) = (if handled action then 1%nat else 0%nat)
  /\ udpPacketCreator.get (snd (fst r)) 10 mod 256
     = (udpPacketCreator.get u 10 + Z.of_nat (length (snd r))) mod 256.
Proof.
  destruct action; cbn [handleInputAction handled];
    try (cbn [fst snd length]; rewrite Z.add_0_r;
         split; [intros Hg; exact Hg|repeat split]; fail);
    match goal with
    | |- context [udpPacketCreator.encodeCmd ?u ?c ?a] =>
        pose proof (CreatorFacts.encodeCmd_get u c a) as Hget;
        destruct (udpPacketCreator.encodeCmd u c a) as [u1 p]
    end;
    cbn [fst snd length withGaz ARCommands.Gaz ARCommands.Flag ARCommands.Roll
         ARCommands.Pitch ARCommands.Yaw ARCommands.TimestampAndSeqNum] in *;
    (split;
     [intros Hg; try exact Hg; rewrite CheckLimitPcmdField_clamps; lia
     |split; [reflexivity|split; [reflexivity|]]]);
    rewrite Hget, Z.mod_mod by lia; reflexivity.
Qed.

(** X16.  Whatever actions arrive, in whatever order, the input router
    keeps the gaz of the piloting state within -100 and 100 and never
    touches its flag, roll, pitch, yaw and timestamp; it hands over one
    packet for every take-off, landing and gaz action and none for any
    other action, and the counter of buffer 10 advances by the number of
    packets handed over, modulo 256. *)
Theorem input_router_keeps_gaz_in_range (actions : list inputAction) :
  forall (pcmd : ARCommands.Ardrone3PilotingPCMDArguments) (u : udpPacketCreator.t),
    -100 <= ARCommands.Gaz pcmd <= 100 ->
    let r := handleAll pcmd u actions in
    -100 <= ARCommands.Gaz (fst (fst r)) <= 100
    /\ (ARCommands.Flag (fst (fst r)), ARCommands.Roll (fst (fst r)),
        ARCommands.Pitch (fst (fst r)), ARCommands.Yaw (fst (fst r)),
        ARCommands.TimestampAndSeqNum (fst (fst r)))
       = (ARCommands.Flag pcmd, ARCommands.Roll pcmd, ARCommands.Pitch pcmd,
          ARCommands.Yaw pcmd, ARCommands.TimestampAndSeqNum pcmd)
    /\ length (snd r) = length (List.filter handled actions)
    /\ udpPacketCreator.get (snd (fst r)) 10 mod 256
       = (udpPacketCreator.get u 10 + Z.of_nat (length (snd r))) mod 256.
Proof.
  induction actions as [|action rest IH]; intros pcmd u Hg.
  - cbn. rewrite Z.add_0_r. repeat split; lia.
  - cbv zeta. cbn [handleInputActions List.filter].
    pose proof (handleInputAction_step pcmd u action) as Hs. cbv zeta in Hs.
    destruct (handle pcmd u action) as [[pcmd1 u1] out].
    cbn [fst snd] in Hs. destruct Hs as (Hg1 & Hf1 & Hl1 & Hc1).
    specialize (IH pcmd1 u1 (Hg1 Hg)). cbv zeta in IH.
    destruct (handleAll pcmd1 u1 rest) as [[pcmd2 u2] more].
    cbn [fst snd] in IH |- *. destruct IH as (Hg2 & Hf2 & Hl2 & Hc2).
    split; [exact Hg2|]. split; [rewrite Hf2; exact Hf1|].
    rewrite length_app, Hl1, Hl2. split.
    + destruct (handled action); reflexivity.
    + rewrite Hc2. rewrite <- Hl1, <- Hl2.
      rewrite <- Zplus_mod_idemp_l, Hc1, Zplus_mod_idemp_l.
      f_equal. rewrite Nat2Z.inj_add. lia.
Qed.

Lemma gaz_increases (n : nat) :
  forall (pcmd : ARCommands.Ardrone3PilotingPCMDArguments) (u : udpPacketCreator.t),
    -100 <= ARCommands.Gaz pcmd <= 100 ->
    ARCommands.Gaz (fst (fst (handleAll pcmd u (repeat ActionPcmdGazInc n))))
    = Z.min (ARCommands.Gaz pcmd + Z.of_nat n) 100.
Proof.
  induction n as [|n IH]; intros pcmd u Hg; [cbn; lia|].
  cbn [repeat handleInputActions handleInputAction].
  destruct (udpPacketCreator.encodeCmd u PilotingPCMD _) as [u1 p].
  set (pcmd1 := withGaz _ _).
  assert (ARCommands.Gaz pcmd1 = Z.min (ARCommands.Gaz pcmd + 1) 100) as H1.
  { unfold pcmd1. cbn [withGaz ARCommands.Gaz].
    rewrite CheckLimitPcmdField_clamps, int8_small by lia. lia. }
  specialize (IH pcmd1 u1 ltac:(lia)).
  destruct (handleAll pcmd1 u1 (repeat ActionPcmdGazInc n)) as [[pcmd2 u2] more].
  cbn [fst] in IH |- *. rewrite IH, H1. lia.
Qed.

Lemma gaz_decreases (n : nat) :
  forall (pcmd : ARCommands.Ardrone3PilotingPCMDArguments) (u : udpPacketCreator.t),
    -100 <= ARCommands.Gaz pcmd <= 100 ->
    ARCommands.Gaz (fst (fst (handleAll pcmd u (repeat ActionPcmdGazDec n))))
    = Z.max (ARCommands.Gaz pcmd - Z.of_nat n) (-100).
Proof.
  induction n as [|n IH]; intros pcmd u Hg; [cbn; lia|].
  cbn [repeat handleInputActions handleInputAction].
  destruct (udpPacketCreator.encodeCmd u PilotingPCMD _) as [u1 p].
  set (pcmd1 := withGaz _ _).
  assert (ARCommands.Gaz pcmd1 = Z.max (ARCommands.Gaz pcmd - 1) (-100)) as H1.
  { unfold pcmd1. cbn [withGaz ARCommands.Gaz].
    rewrite CheckLimitPcmdField_clamps, int8_small by lia. lia. }
  specialize (IH pcmd1 u1 ltac:(lia)).
  destruct (handleAll pcmd1 u1 (repeat ActionPcmdGazDec n)) as [[pcmd2 u2] more].
  cbn [fst] in IH |- *. rewrite IH, H1. lia.
Qed.

(** X17.  From a new drone, [n] gaz increments in a row leave the gaz at
    the smaller of [n] and 100, and [n] decrements at the negative of it:
    the gaz saturates at the limits and does not wrap. *)
Theorem gaz_saturates_at_hundred (n : nat) (u : udpPacketCreator.t) :
  ARCommands.Gaz (fst (fst (handleAll pcmdZero u (repeat ActionPcmdGazInc n))))
  = Z.min (Z.of_nat n) 100
  /\ ARCommands.Gaz (fst (fst (handleAll pcmdZero u (repeat ActionPcmdGazDec n))))
     = - Z.min (Z.of_nat n) 100.
Proof.
  split.
  - rewrite gaz_increases by (simpl; lia). simpl. reflexivity.
  - rewrite gaz_decreases by (simpl; lia). simpl. lia.
Qed.

End WithCommands.

(** X16 on a new drone that is asked to take off, climb twice, fire the
    emergency and land. *)
Lemma input_router_keeps_gaz_in_range_witness :
  ARCommands.Gaz
    (fst (fst (handleInputActions (ARCommands.mkCommand 1 0 3)
                 (ARCommands.mkCommand 1 0 2) (ARCommands.mkEncoded [])
                 pcmdZero udpPacketCreator.newUdpPacketCreator
                 [ActionTakeoff; ActionPcmdGazInc; ActionPcmdGazInc;
                  ActionEmergency; ActionLanding])))
  = 2
  /\ length
       (snd (handleInputActions (ARCommands.mkCommand 1 0 3)
               (ARCommands.mkCommand 1 0 2) (ARCommands.mkEncoded [])
               pcmdZero udpPacketCreator.newUdpPacketCreator
               [ActionTakeoff; ActionPcmdGazInc; ActionPcmdGazInc;
                ActionEmergency; ActionLanding]))
     = 4%nat.
Proof.
  destruct (input_router_keeps_gaz_in_range (ARCommands.mkCommand 1 0 3)
              (ARCommands.mkCommand 1 0 2) (ARCommands.mkEncoded [])
              [ActionTakeoff; ActionPcmdGazInc; ActionPcmdGazInc;
               ActionEmergency; ActionLanding]
              pcmdZero udpPacketCreator.newUdpPacketCreator
              ltac:(simpl; lia)) as (_ & _ & Hl & _).
  split; [reflexivity|]. rewrite Hl. reflexivity.
Defined.

End InputRunsFacts.

(** ** Waypoints that are not numbers *)

Module NaNFacts.

Import MoveTo MoveToRuns.

(** A comparison with a NaN is false, in the specification of binary64. *)
Lemma SFcompare_refl (f : spec_float) :
  f <> S754_nan -> SFcompare f f = Some Eq.
Proof.
  destruct f as [s|s| |s m e]; intros Hn; try reflexivity; try contradiction.
  - destruct s; reflexivity.
  - cbn [SFcompare]. rewrite Z.compare_refl, Pos.compare_refl.
    destruct s; reflexivity.
Qed.

Lemma is_nan_spec (f : float) : PrimFloat.is_nan f = true -> Prim2SF f = S754_nan.
Proof.
  unfold PrimFloat.is_nan. rewrite FloatAxioms.eqb_spec. unfold SFeqb. intros Hn.
  destruct (Prim2SF f) as [sg|sg| |sg m e] eqn:Hf; [| |reflexivity|];
    rewrite SFcompare_refl in Hn by discriminate; discriminate Hn.
Qed.

Lemma ltb_nan (x y : float) :
  PrimFloat.is_nan x = true \/ PrimFloat.is_nan y = true ->
  PrimFloat.ltb x y = false.
Proof.
  intros Hn. rewrite FloatAxioms.ltb_spec. unfold SFltb.
  destruct Hn as [Hn|Hn]; apply is_nan_spec in Hn; rewrite Hn.
  - reflexivity.
  - destruct (Prim2SF x); reflexivity.
Qed.

(** X18.  A waypoint whose latitude and longitude are not numbers passes
    the range check, whatever its altitude, and is put at the tail of the
    buffer: the four comparisons of the check are all false on a NaN. *)
Theorem nan_waypoint_is_taken (spare : nat -> nat) (s : moveToBuffer)
  (wp : gpsLatLonAlt) :
  wellFormed (waypoints s) ->
  PrimFloat.is_nan (latitude wp) = true ->
  PrimFloat.is_nan (longitude wp) = true ->
  elems (waypoints (startWayPointReceiver spare s wp)) = elems (waypoints s) ++ [wp].
Proof.
  intros Hw Hlat Hlon. unfold startWayPointReceiver.
  rewrite !ltb_nan by auto. cbn [orb].
  apply MoveToFacts.elems_append1. exact Hw.
Qed.

(** The theorem at the waypoint (NaN, NaN, 30) and an empty buffer. *)
Lemma nan_waypoint_is_taken_witness :
  elems (waypoints (startWayPointReceiver doubling newMoveToHandler
                      (mkGps nan nan 30)))
  = [mkGps nan nan 30].
Proof.
  rewrite (nan_waypoint_is_taken doubling newMoveToHandler (mkGps nan nan 30)
             MoveToFacts.wellFormed_nil eq_refl eq_refl).
  reflexivity.
Defined.

End NaNFacts.
